(** * Access-log filter of go-restful-plugins: pkg/logger/log/accesslog.go

    A shallow embedding of the full access log filter and of the parts of
    the Go standard library it calls (strings, strconv, io/ioutil), followed
    by the properties of the body-capture pipeline, of the start-up
    configuration and of the assembled log record. *)

From Stdlib Require Import ZArith NArith Lia Ascii String DecimalString DecimalFacts
  DecimalPos List Bool.
From stdpp Require Import base option gmap strings list.

Open Scope string_scope.
Open Scope Z_scope.

(** ** Go's [strings] package, as far as the filter calls it.

    A Go string is a sequence of bytes; [string] (a list of 8-bit [ascii])
    is exactly that. *)
Module GoStrings.

(** [strings.HasPrefix(s, prefix)]. *)
Fixpoint HasPrefix (s prefix : string) : bool :=
  match prefix, s with
  | EmptyString, _ => true
  | String _ _, EmptyString => false
  | String p prefix', String c s' =>
      if Ascii.eqb c p then HasPrefix s' prefix' else false
  end.

(** [strings.Contains(s, substr)], i.e. [strings.Index(s, substr) >= 0]:
    [substr] starts at some offset of [s]. *)
Fixpoint Contains (s substr : string) : bool :=
  if HasPrefix s substr then true
  else match s with
       | EmptyString => false
       | String _ s' => Contains s' substr
       end.

(** [strings.Split(s, sep)] for a one-byte separator (the filter splits on
    a comma): the fields between the separators, empty fields included, so
    the result always has one more element than [s] has separators. *)
Fixpoint Split (s : string) (sep : ascii) : list string :=
  match s with
  | EmptyString => [EmptyString]
  | String c s' =>
      if Ascii.eqb c sep then EmptyString :: Split s' sep
      else match Split s' sep with
           | [] => [String c EmptyString]
           | field :: fields => String c field :: fields
           end
  end.

(** [strings.ReplaceAll(s, old, new)] for a one-byte [old] (the filter
    replaces the line feed and the carriage return). *)
Fixpoint ReplaceAll (s : string) (old : ascii) (new : string) : string :=
  match s with
  | EmptyString => EmptyString
  | String c s' =>
      if Ascii.eqb c old then new ++ ReplaceAll s' old new
      else String c (ReplaceAll s' old new)
  end.

End GoStrings.

(** ** Go's [strconv] package: [ParseBool] and [ParseInt]. *)
Module strconv.

Inductive ParseErr : Type := ErrSyntax | ErrRange.

(** [*strconv.NumError]: the failing function, the input and the cause. *)
Record NumError : Type :=
  mkNumError { Func : string; Num : string; Err : ParseErr }.

Definition syntaxError (fn str : string) : NumError := mkNumError fn str ErrSyntax.
Definition rangeError (fn str : string) : NumError := mkNumError fn str ErrRange.

(** [strconv.ParseBool]: on a string outside the twelve accepted spellings
    the value returned next to the error is [false]. *)
Definition ParseBool (str : string) : bool * option NumError :=
  if (str =? "1")%string || (str =? "t")%string || (str =? "T")%string
     || (str =? "true")%string || (str =? "TRUE")%string || (str =? "True")%string
  then (true, None)
  else if (str =? "0")%string || (str =? "f")%string || (str =? "F")%string
          || (str =? "false")%string || (str =? "FALSE")%string || (str =? "False")%string
  then (false, None)
  else (false, Some (syntaxError "ParseBool" str)).

Definition byte_val (c : ascii) : N := N_of_ascii c.

(** [lower(c)] is [c | ('x' - 'X')]. *)
Definition lower (c : ascii) : N := N.lor (byte_val c) 32.

Definition is_digit (c : ascii) : bool :=
  (48 <=? byte_val c)%N && (byte_val c <=? 57)%N.

Definition maxUint64 : N := 18446744073709551615.

(** [underscoreOK]: underscores may only separate digits, or follow a base
    prefix. [saw] is the kind of the last byte: beginning, digit,
    underscore, or none of these. *)
Inductive Saw : Type := SawStart | SawDigit | SawUnderscore | SawOther.

Fixpoint underscoreOK_loop (hex : bool) (saw : Saw) (s : string) : bool :=
  match s with
  | EmptyString => match saw with SawUnderscore => false | _ => true end
  | String c s' =>
      if is_digit c || (hex && (97 <=? lower c)%N && (lower c <=? 102)%N)
      then underscoreOK_loop hex SawDigit s'
      else if Ascii.eqb c "_"
      then match saw with
           | SawDigit => underscoreOK_loop hex SawUnderscore s'
           | _ => false
           end
      else match saw with
           | SawUnderscore => false
           | _ => underscoreOK_loop hex SawOther s'
           end
  end.

Definition underscoreOK (s : string) : bool :=
  let s1 := match s with
            | String c r => if Ascii.eqb c "-" || Ascii.eqb c "+" then r else s
            | EmptyString => s
            end in
  match s1 with
  | String c0 (String c1 r) =>
      if Ascii.eqb c0 "0" && ((lower c1 =? 98)%N || (lower c1 =? 111)%N || (lower c1 =? 120)%N)
      then underscoreOK_loop (lower c1 =? 120)%N SawDigit r
      else underscoreOK_loop false SawStart s1
  | _ => underscoreOK_loop false SawStart s1
  end.

(** The digit loop of [ParseUint] for bit size 64. [n] is the [uint64]
    accumulator; the two overflow tests are the ones of the library, with
    the wrap-around of [n + d] written out. The result is [inl] of the
    number and of whether an underscore was skipped, or [inr] of the value
    and cause of the failure. *)
Fixpoint ParseUint_loop (base : N) (base0 : bool) (cutoff : N)
    (underscores : bool) (n : N) (s : string) : (N * bool) + (N * ParseErr) :=
  match s with
  | EmptyString => inl (n, underscores)
  | String c s' =>
      if Ascii.eqb c "_" && base0
      then ParseUint_loop base base0 cutoff true n s'
      else
        let d := if is_digit c then Some (byte_val c - 48)%N
                 else if (97 <=? lower c)%N && (lower c <=? 122)%N
                 then Some (lower c - 97 + 10)%N
                 else None in
        match d with
        | None => inr (0%N, ErrSyntax)
        | Some d =>
            if (base <=? d)%N then inr (0%N, ErrSyntax)
            else if (cutoff <=? n)%N then inr (maxUint64, ErrRange)
            else
              let nb := ((n * base) mod 2 ^ 64)%N in
              let n1 := ((nb + d) mod 2 ^ 64)%N in
              if (n1 <? nb)%N || (maxUint64 <? n1)%N
              then inr (maxUint64, ErrRange)
              else ParseUint_loop base base0 cutoff underscores n1 s'
        end
  end.

(** [strconv.ParseUint(s, 0, 64)]: base 0 takes the base from the prefix
    ([0b], [0o], [0x], a bare leading [0] for octal, decimal otherwise)
    and allows underscores. *)
Definition ParseUint (s : string) : N * option NumError :=
  match s with
  | EmptyString => (0%N, Some (syntaxError "ParseUint" s))
  | String c0 r0 =>
      let '(base, digits) :=
        if Ascii.eqb c0 "0" then
          match r0 with
          | String c1 (String c2 r2) =>
              if (lower c1 =? 98)%N then (2%N, String c2 r2)
              else if (lower c1 =? 111)%N then (8%N, String c2 r2)
              else if (lower c1 =? 120)%N then (16%N, String c2 r2)
              else (8%N, r0)
          | _ => (8%N, r0)
          end
        else (10%N, s) in
      let cutoff := (maxUint64 / base + 1)%N in
      match ParseUint_loop base true cutoff false 0%N digits with
      | inr (v, e) => (v, Some (mkNumError "ParseUint" s e))
      | inl (n, underscores) =>
          if underscores && negb (underscoreOK s)
          then (0%N, Some (syntaxError "ParseUint" s))
          else (n, None)
      end
  end.

(** The conversion [int64(un)] and the negation of an [int64], both in
    two's complement. *)
Definition int64_wrap (z : Z) : Z := (z + 2 ^ 63) mod 2 ^ 64 - 2 ^ 63.
Definition int64_of_uint64 (un : N) : Z := int64_wrap (Z.of_N un).

(** [strconv.ParseInt(s, 0, 64)]. A syntax error returns 0; a value out of
    range returns the nearest [int64] together with the error. *)
Definition ParseInt (s : string) : Z * option NumError :=
  match s with
  | EmptyString => (0, Some (syntaxError "ParseInt" s))
  | String c0 r0 =>
      let '(neg, s1) :=
        if Ascii.eqb c0 "+" then (false, r0)
        else if Ascii.eqb c0 "-" then (true, r0)
        else (false, s) in
      let cutoff := (2 ^ 63)%N in
      match ParseUint s1 with
      | (_, Some (mkNumError _ _ ErrSyntax)) => (0, Some (syntaxError "ParseInt" s))
      | (un, _) =>
          if negb neg && (cutoff <=? un)%N
          then (Z.of_N cutoff - 1, Some (rangeError "ParseInt" s))
          else if neg && (cutoff <? un)%N
          then (- Z.of_N cutoff, Some (rangeError "ParseInt" s))
          else
            let n := int64_of_uint64 un in
            ((if neg then int64_wrap (- n) else n), None)
      end
  end.

End strconv.

(** ** Go's [io] readers and [io/ioutil].

    A request body is an [io.Reader]: a source that hands out chunks of
    bytes and then ends, either cleanly ([io.EOF]) or with a read error; a
    reader that has ended keeps reporting the same end. *)
Module ioutil.

Inductive Reader : Type :=
| EOF : Reader                                      (* Read gives 0, io.EOF *)
| Fail (e : string) : Reader                        (* Read gives 0, an error *)
| Chunk (b : list Byte.byte) (rest : Reader) : Reader.  (* Read gives the bytes b *)

(** [ioutil.ReadAll(r)]: reads until [io.EOF] or an error and returns the
    bytes read so far together with the error; [io.EOF] is not reported
    as an error. *)
Fixpoint ReadAll (r : Reader) : list Byte.byte * option string :=
  match r with
  | EOF => ([], None)
  | Fail e => ([], Some e)
  | Chunk b rest => let '(bs, err) := ReadAll rest in ((b ++ bs)%list, err)
  end.

(** What is left of a reader once [ReadAll] went through it: its end. *)
Fixpoint drained (r : Reader) : Reader :=
  match r with
  | Chunk _ rest => drained rest
  | _ => r
  end.

(** [ioutil.NopCloser(bytes.NewBuffer(buf))]: a fresh reader over [buf],
    positioned at its start and ending with [io.EOF]. *)
Definition NopCloser_NewBuffer (buf : list Byte.byte) : Reader := Chunk buf EOF.

End ioutil.

(** ** Calls to the [logrus] standard logger: a format and its argument. *)
Module logrus.

Inductive Arg : Type :=
| ArgNumError (e : strconv.NumError)
| ArgString (s : string).

Record Entry : Type := Errorf { format : string; arg : Arg }.

(** [logrus.Level] is a [uint32]; the higher the level, the more is logged. *)
Definition PanicLevel : N := 0.
Definition FatalLevel : N := 1.
Definition ErrorLevel : N := 2.
Definition WarnLevel : N := 3.
Definition InfoLevel : N := 4.
Definition DebugLevel : N := 5.
Definition TraceLevel : N := 6.

(** A [logrus.Logger], as far as the filter builds one: its output is the
    standard output and its formatter the one of this file, so its level is
    all that varies. *)
Record Logger : Type := mkLogger { Level : N }.

(** [logger.IsLevelEnabled(level)]. *)
Definition IsLevelEnabled (logger : Logger) (level : N) : bool :=
  (level <=? Level logger)%N.

End logrus.

(** ** Data model *)

(** [http.Header]: a key maps to the list of its values; [Get] returns the
    first one, or the empty string. *)
Definition HeaderGet (h : gmap string (list string)) (key : string) : string :=
  match h !! key with
  | Some (v :: _) => v
  | _ => ""
  end.

(** [restful.Request], as far as the filter looks at it. The attributes the
    filter reads are all converted with [val.(string)]: they hold strings,
    and a missing attribute is [nil]. *)
Record Request : Type := mkRequest {
  Method : string;
  RequestURI : string;                       (* req.Request.URL.RequestURI() *)
  Header : gmap string (list string);
  Body : ioutil.Reader;
  attributes : gmap string string;
  SelectedRoute : option string              (* the route's Operation() *)
}.

Definition Attribute (req : Request) (name : string) : option string :=
  attributes req !! name.

Definition HeaderParameter (req : Request) (name : string) : string :=
  HeaderGet (Header req) name.

Definition setBody (req : Request) (b : ioutil.Reader) : Request :=
  mkRequest (Method req) (RequestURI req) (Header req) b (attributes req) (SelectedRoute req).

(** The state of the server's own [http.ResponseWriter]. *)
Record HTTPResponseWriter : Type := mkHTTPResponseWriter {
  header : gmap string (list string);
  written : list Byte.byte;
  status : option Z
}.

(** Modelled from the spec: [ResponseWriterInterceptor] is declared in another
    file of the package. It wraps the underlying response writer and owns a
    side buffer, [data], that accumulates every byte written. *)
Record ResponseWriterInterceptor : Type := mkInterceptor {
  ResponseWriter : HTTPResponseWriter;
  data : list Byte.byte
}.

(** [restful.Response] over a writer [W]. *)
Record Response (W : Type) : Type := mkResponse {
  Writer : W;
  StatusCode : Z;
  ContentLength : Z
}.
Arguments mkResponse {W} _ _ _.
Arguments Writer {W} _.
Arguments StatusCode {W} _.
Arguments ContentLength {W} _.

(** The claims of an access token the filter falls back to. *)
Record JWTClaims : Type := mkJWTClaims {
  Namespace : string;
  Subject : string;
  ClientID : string
}.

(** The rest of the chain, [chain.ProcessFilter(req, resp)]: it may consume
    the body, attach attributes, and write the response through the
    interceptor. *)
Definition FilterChain : Type :=
  Request -> Response ResponseWriterInterceptor ->
  Request * Response ResponseWriterInterceptor.

(** The package-level capture policy. *)
Record Config : Type := mkConfig {
  FullAccessLogEnabled : bool;
  FullAccessLogSupportedContentTypes : list string;
  FullAccessLogMaxBodySize : Z;
  FullAccessLogRequestBodyEnabled : bool;
  FullAccessLogResponseBodyEnabled : bool
}.

(** The arguments handed to [fullAccessLogLogger.Infof], in order. *)
Record AccessRecord : Type := mkAccessRecord {
  rec_time : string;
  rec_method : string;
  rec_path : string;
  rec_status : Z;
  rec_duration : Z;
  rec_length : Z;
  rec_source_ip : string;
  rec_user_agent : string;
  rec_referer : string;
  rec_trace_id : string;
  rec_namespace : string;
  rec_user_id : string;
  rec_client_id : string;
  rec_request_content_type : string;
  rec_request_body : string;
  rec_response_content_type : string;
  rec_response_body : string;
  rec_operation : string
}.

(** The two clock readings of one transaction: the formatted time of the
    log call and the elapsed milliseconds. *)
Record Clock : Type := mkClock { stamp : string; elapsedMs : Z }.

(** The logging state one run of the filter meets: the package variable
    [fullAccessLogLogger], [None] for [nil] before the first run, and the
    level of the standard logger, which [logrus.GetLevel()] returns. *)
Record Logging : Type := mkLogging {
  fullAccessLogLogger : option logrus.Logger;
  GetLevel : N
}.

(** What one run of the filter does: the request it hands to the rest of the
    chain, the request and response the chain leaves behind, the record it
    assembles, the lines the access logger writes to its output, its calls to
    [logrus.Errorf], and the access logger the package variable holds
    afterwards. *)
Record Outcome : Type := mkOutcome {
  forwarded : Request;
  request_after : Request;
  response_after : Response ResponseWriterInterceptor;
  logged : AccessRecord;
  emitted : list string;
  errors : list logrus.Entry;
  logger_after : logrus.Logger
}.

(** The parts of the repository and of its dependencies that the filter calls
    and that live outside this file: the header and attribute names, the
    masking functions, the JSON minifier, the token lookup and the source-IP
    lookup. *)
Class Collaborators : Type := {
  constant_Referer : string;
  constant_UserAgent : string;
  constant_ContentType : string;
  NamespaceAttribute : string;
  UserIDAttribute : string;
  ClientIDAttribute : string;
  MaskedQueryParamsAttribute : string;
  MaskedRequestFieldsAttribute : string;
  MaskedResponseFieldsAttribute : string;
  trace_TraceIDKey : string;
  MaskFields : string -> string -> string -> string;
  MaskQueryParams : string -> string -> string;
  util_MinifyJSON : list Byte.byte -> string;
  iam_RetrieveJWTClaims : Request -> option JWTClaims;
  publicsourceip_PublicIP : gmap string (list string) -> string
}.

(** ** The filter *)

(** The package variables before [init] runs: Go's zero values. *)
Definition zeroConfig : Config := mkConfig false [] 0 false false.

Definition setEnabled (c : Config) (v : bool) : Config :=
  mkConfig v (FullAccessLogSupportedContentTypes c) (FullAccessLogMaxBodySize c)
    (FullAccessLogRequestBodyEnabled c) (FullAccessLogResponseBodyEnabled c).
Definition setSupportedContentTypes (c : Config) (v : list string) : Config :=
  mkConfig (FullAccessLogEnabled c) v (FullAccessLogMaxBodySize c)
    (FullAccessLogRequestBodyEnabled c) (FullAccessLogResponseBodyEnabled c).
Definition setMaxBodySize (c : Config) (v : Z) : Config :=
  mkConfig (FullAccessLogEnabled c) (FullAccessLogSupportedContentTypes c) v
    (FullAccessLogRequestBodyEnabled c) (FullAccessLogResponseBodyEnabled c).
Definition setRequestBodyEnabled (c : Config) (v : bool) : Config :=
  mkConfig (FullAccessLogEnabled c) (FullAccessLogSupportedContentTypes c)
    (FullAccessLogMaxBodySize c) v (FullAccessLogResponseBodyEnabled c).
Definition setResponseBodyEnabled (c : Config) (v : bool) : Config :=
  mkConfig (FullAccessLogEnabled c) (FullAccessLogSupportedContentTypes c)
    (FullAccessLogMaxBodySize c) (FullAccessLogRequestBodyEnabled c) v.

(** [os.LookupEnv]. *)
Definition LookupEnv (env : gmap string string) (key : string) : option string :=
  env !! key.

(** [if err != nil { logrus.Errorf(format, err) }]. *)
Definition logParseError (fmt : string) (err : option strconv.NumError) : list logrus.Entry :=
  match err with
  | Some e => [logrus.Errorf fmt (logrus.ArgNumError e)]
  | None => []
  end.

(** [int(value)] for an [int64] value: [int] has 64 bits on the platforms
    the service is built for, so the conversion keeps the value. *)
Definition int_of_int64 (value : Z) : Z := value.

Definition defaultSupportedContentTypes : list string :=
  ["application/json"; "application/xml"; "application/x-www-form-urlencoded";
   "text/plain"; "text/html"].

(** One boolean setting of [init]: when the variable exists, the parsed
    value is assigned whether or not the parse failed. *)
Definition initBool (env : gmap string string) (key fmt : string)
    (set : Config -> bool -> Config) (c : Config) : Config * list logrus.Entry :=
  match LookupEnv env key with
  | Some s =>
      let '(value, err) := strconv.ParseBool s in
      (set c value, logParseError fmt err)
  | None => (c, [])
  end.

(** [init]: the package variables and the errors logged, for an environment. *)
Definition init (env : gmap string string) : Config * list logrus.Entry :=
  let '(c1, l1) :=
    initBool env "FULL_ACCESS_LOG_ENABLED" "Parse FULL_ACCESS_LOG_ENABLED env error: %v"
      setEnabled zeroConfig in
  let c2 :=
    match LookupEnv env "FULL_ACCESS_LOG_SUPPORTED_CONTENT_TYPES" with
    | Some s => setSupportedContentTypes c1 (GoStrings.Split s ",")
    | None => setSupportedContentTypes c1 defaultSupportedContentTypes
    end in
  let c3 := setMaxBodySize c2 (Z.shiftl 10 10) in
  let '(c4, l4) :=
    match LookupEnv env "FULL_ACCESS_LOG_MAX_BODY_SIZE" with
    | Some s =>
        let '(value, err) := strconv.ParseInt s in
        (setMaxBodySize c3 (int_of_int64 value),
         logParseError "Parse FULL_ACCESS_LOG_MAX_BODY_SIZE env error: %v" err)
    | None => (c3, [])
    end in
  let c5 := setRequestBodyEnabled c4 true in
  let '(c6, l6) :=
    initBool env "FULL_ACCESS_LOG_REQUEST_BODY_ENABLED"
      "Parse FULL_ACCESS_LOG_REQUEST_BODY_ENABLED env error: %v"
      setRequestBodyEnabled c5 in
  let c7 := setResponseBodyEnabled c6 true in
  let '(c8, l8) :=
    initBool env "FULL_ACCESS_LOG_RESPONSE_BODY_ENABLED"
      "Parse FULL_ACCESS_LOG_RESPONSE_BODY_ENABLED env error: %v"
      setResponseBodyEnabled c7 in
  (c8, (l1 ++ l4 ++ l6 ++ l8)%list).

(** [isSupportedContentType]: the loop over the supported types. *)
Fixpoint isSupportedIn (types : list string) (contentType : string) : bool :=
  match types with
  | [] => false
  | v :: rest =>
      if GoStrings.Contains contentType v then true
      else isSupportedIn rest contentType
  end.

Definition isSupportedContentType (cfg : Config) (contentType : string) : bool :=
  isSupportedIn (FullAccessLogSupportedContentTypes cfg) contentType.

(** [len(b)] as a Go [int]. *)
Definition len (b : list Byte.byte) : Z := Z.of_nat (length b).

(** The line feed and the carriage return. *)
Definition LF : ascii := "010"%char.
Definition CR : ascii := "013"%char.

(** The last three statements of both capture functions: the bytes as a
    string, with line feeds and carriage returns written as backslash-n and
    backslash-r. *)
Definition escapeNewlines (b : list Byte.byte) : string :=
  let bodyString := string_of_list_byte b in
  let bodyString := GoStrings.ReplaceAll bodyString LF "\n" in
  GoStrings.ReplaceAll bodyString CR "\r".

Section Filter.
Context `{Collaborators}.

(** [getRequestBody]: the captured text, the request with its body as the
    function leaves it, and the errors logged. *)
Definition getRequestBody (cfg : Config) (req : Request) (contentType : string)
    : string * Request * list logrus.Entry :=
  if (contentType =? "")%string || negb (isSupportedContentType cfg contentType)
  then ("", req, [])
  else
    let '(bodyBytes, err) := ioutil.ReadAll (Body req) in
    let logs :=
      match err with
      | Some e => [logrus.Errorf "failed to read request body: %v" (logrus.ArgString e)]
      | None => []
      end in
    if negb (len bodyBytes =? 0)
    then
      let req' := setBody req (ioutil.NopCloser_NewBuffer bodyBytes) in
      if len bodyBytes >? FullAccessLogMaxBodySize cfg
      then ("data too large", req', logs)
      else if GoStrings.Contains contentType "application/json"
      then (util_MinifyJSON bodyBytes, req', logs)
      else (escapeNewlines bodyBytes, req', logs)
    else ("", setBody req (ioutil.drained (Body req)), logs).

(** [getResponseBody]. *)
Definition getResponseBody (cfg : Config) (respWriter : ResponseWriterInterceptor)
    (contentType : string) : string :=
  if (contentType =? "")%string || negb (isSupportedContentType cfg contentType)
  then ""
  else if len (data respWriter) >? FullAccessLogMaxBodySize cfg
  then "data too large"
  else if GoStrings.Contains contentType "application/json"
  then util_MinifyJSON (data respWriter)
  else escapeNewlines (data respWriter).

End Filter.

(** The double quote of the log format. *)
Definition dq : string := String "034"%char EmptyString.

(** [%d] of an integer. *)
Definition fmt_d (z : Z) : string := NilZero.string_of_int (Z.to_int z).

(** [fmt.Sprintf(fullAccessLogFormat, ...)] on the arguments of the record. *)
Definition fullAccessLogFormat (r : AccessRecord) : string :=
  "time=" ++ rec_time r ++ " log_type=access method=" ++ rec_method r
  ++ " path=" ++ dq ++ rec_path r ++ dq
  ++ " status=" ++ fmt_d (rec_status r)
  ++ " duration=" ++ fmt_d (rec_duration r)
  ++ " length=" ++ fmt_d (rec_length r)
  ++ " source_ip=" ++ rec_source_ip r
  ++ " user_agent=" ++ dq ++ rec_user_agent r ++ dq
  ++ " referer=" ++ dq ++ rec_referer r ++ dq
  ++ " trace_id=" ++ rec_trace_id r
  ++ " namespace=" ++ rec_namespace r
  ++ " user_id=" ++ rec_user_id r
  ++ " client_id=" ++ rec_client_id r
  ++ " request_content_type=" ++ dq ++ rec_request_content_type r ++ dq
  ++ " request_body=AB[" ++ rec_request_body r ++ "]AB"
  ++ " response_content_type=" ++ dq ++ rec_response_content_type r ++ dq
  ++ " response_body=AB[" ++ rec_response_body r ++ "]AB"
  ++ " operation=" ++ dq ++ rec_operation r ++ dq.

(** [fullAccessLogFormatter.Format]: the message and a line feed. *)
Definition Format (message : string) : string := message ++ String LF EmptyString.

(** [fullAccessLogLogger.Infof] on the formatted message: the logger writes
    the message, through [Format], when its level admits [InfoLevel], and
    nothing otherwise. *)
Definition Infof (logger : logrus.Logger) (message : string) : list string :=
  if logrus.IsLevelEnabled logger logrus.InfoLevel then [Format message] else [].

(** The first statement of the filter: the access logger is built on first
    use, with the level the standard logger has at that moment, and kept. *)
Definition accessLogger (lg : Logging) : logrus.Logger :=
  match fullAccessLogLogger lg with
  | Some logger => logger
  | None => logrus.mkLogger (GetLevel lg)
  end.

(** [if val := req.Attribute(name); val != nil { x = val.(string) }] on a
    variable that holds the empty string. *)
Definition attributeOrEmpty (req : Request) (name : string) : string :=
  match Attribute req name with
  | Some val => val
  | None => ""
  end.

(** [if x == "" { x = claim }]. *)
Definition fallback (x claim : string) : string :=
  if (x =? "")%string then claim else x.

(** [if masked := req.Attribute(name); masked != nil && body != "" { body =
    mask(contentType, body, masked.(string)) }]. *)
Definition maskBody (mask : string -> string -> string -> string)
    (req : Request) (name contentType body : string) : string :=
  match Attribute req name with
  | Some masked => if negb (body =? "")%string then mask contentType body masked else body
  | None => body
  end.

Section AccessLogFilter.
Context `{Collaborators}.

(** [AccessLog]: the filter, for one transaction. *)
Definition AccessLog (cfg : Config) (lg : Logging) (clock : Clock) (req : Request)
    (resp : Response HTTPResponseWriter) (chain : FilterChain) : Outcome :=
  let logger := accessLogger lg in
  let sourceIP := publicsourceip_PublicIP (Header req) in
  let referer := HeaderParameter req constant_Referer in
  let userAgent := HeaderParameter req constant_UserAgent in
  let requestContentType := HeaderParameter req constant_ContentType in
  let requestBody := "-" in
  let '(requestBody, req1, errs) :=
    if FullAccessLogEnabled cfg then
      if FullAccessLogRequestBodyEnabled cfg
      then getRequestBody cfg req requestContentType
      else (requestBody, req, [])
    else (requestBody, req, []) in
  let respWriterInterceptor := mkInterceptor (Writer resp) [] in
  let resp1 := mkResponse respWriterInterceptor (StatusCode resp) (ContentLength resp) in
  let '(req2, resp2) := chain req1 resp1 in
  let tokenNamespace := attributeOrEmpty req2 NamespaceAttribute in
  let tokenUserID := attributeOrEmpty req2 UserIDAttribute in
  let tokenClientID := attributeOrEmpty req2 ClientIDAttribute in
  let '(tokenNamespace, tokenUserID, tokenClientID) :=
    match iam_RetrieveJWTClaims req2 with
    | Some jwtClaims =>
        (fallback tokenNamespace (Namespace jwtClaims),
         fallback tokenUserID (Subject jwtClaims),
         fallback tokenClientID (ClientID jwtClaims))
    | None => (tokenNamespace, tokenUserID, tokenClientID)
    end in
  let requestUri :=
    match Attribute req2 MaskedQueryParamsAttribute with
    | Some maskedQueryParams => MaskQueryParams (RequestURI req2) maskedQueryParams
    | None => RequestURI req2
    end in
  let responseContentType :=
    HeaderGet (header (ResponseWriter (Writer resp2))) constant_ContentType in
  let responseBody := "-" in
  let requestBody :=
    if FullAccessLogEnabled cfg then
      if FullAccessLogRequestBodyEnabled cfg
      then maskBody MaskFields req2 MaskedRequestFieldsAttribute requestContentType requestBody
      else requestBody
    else requestBody in
  let responseBody :=
    if FullAccessLogEnabled cfg then
      if FullAccessLogResponseBodyEnabled cfg
      then maskBody MaskFields req2 MaskedResponseFieldsAttribute responseContentType
             (getResponseBody cfg (Writer resp2) responseContentType)
      else responseBody
    else responseBody in
  let operation :=
    match SelectedRoute req2 with
    | Some op => op
    | None => ""
    end in
  let traceID := attributeOrEmpty req2 trace_TraceIDKey in
  let record :=
    mkAccessRecord (stamp clock) (Method req2) requestUri (StatusCode resp2)
      (elapsedMs clock) (ContentLength resp2) sourceIP userAgent referer traceID
      tokenNamespace tokenUserID tokenClientID requestContentType requestBody
      responseContentType responseBody operation in
  mkOutcome req1 req2 resp2 record (Infof logger (fullAccessLogFormat record)) errs
    logger.

(** The response as the filter hands it to the rest of the chain: the
    original writer behind a fresh interceptor. *)
Definition intercepted (resp : Response HTTPResponseWriter)
    : Response ResponseWriterInterceptor :=
  mkResponse (mkInterceptor (Writer resp) []) (StatusCode resp) (ContentLength resp).

(** The capture step of [AccessLog]. *)
Definition captureStep (cfg : Config) (req : Request)
    : string * Request * list logrus.Entry :=
  if FullAccessLogEnabled cfg && FullAccessLogRequestBodyEnabled cfg
  then getRequestBody cfg req (HeaderParameter req constant_ContentType)
  else ("-", req, []).

End AccessLogFilter.

(** The three outcomes the precedence rule leaves for an identity field:
    the attached value when it is not empty, else the claim of the token
    when there is a token, else the empty string. *)
Definition precedence (attribute claim : option string) (field : string) : Prop :=
  (forall v, attribute = Some v -> v <> "" -> field = v)
  /\ (attribute = None \/ attribute = Some "" ->
      forall c, claim = Some c -> field = c)
  /\ (attribute = None \/ attribute = Some "" -> claim = None -> field = "").

(** The part of the line before the request body, and the part after the
    response body. *)
Definition lineHead (r : AccessRecord) : string :=
  "time=" ++ rec_time r ++ " log_type=access method=" ++ rec_method r
  ++ " path=" ++ dq ++ rec_path r ++ dq
  ++ " status=" ++ fmt_d (rec_status r)
  ++ " duration=" ++ fmt_d (rec_duration r)
  ++ " length=" ++ fmt_d (rec_length r)
  ++ " source_ip=" ++ rec_source_ip r
  ++ " user_agent=" ++ dq ++ rec_user_agent r ++ dq
  ++ " referer=" ++ dq ++ rec_referer r ++ dq
  ++ " trace_id=" ++ rec_trace_id r
  ++ " namespace=" ++ rec_namespace r
  ++ " user_id=" ++ rec_user_id r
  ++ " client_id=" ++ rec_client_id r
  ++ " request_content_type=" ++ dq ++ rec_request_content_type r ++ dq.

Definition lineTail (r : AccessRecord) : string :=
  " operation=" ++ dq ++ rec_operation r ++ dq.

(** The string-valued arguments of the record, in the order of the format. *)
Definition stringFields (r : AccessRecord) : list string :=
  [rec_time r; rec_method r; rec_path r; rec_source_ip r; rec_user_agent r;
   rec_referer r; rec_trace_id r; rec_namespace r; rec_user_id r; rec_client_id r;
   rec_request_content_type r; rec_request_body r; rec_response_content_type r;
   rec_response_body r; rec_operation r].

(** ** Sample inputs

    A stand-in for the collaborators (header names as in net/http, no
    masking, no minification, no token) and a few requests, used to run the
    filter on concrete transactions. *)
Definition sampleCollaborators : Collaborators := {|
  constant_Referer := "Referer";
  constant_UserAgent := "User-Agent";
  constant_ContentType := "Content-Type";
  NamespaceAttribute := "namespace";
  UserIDAttribute := "userId";
  ClientIDAttribute := "clientId";
  MaskedQueryParamsAttribute := "maskedQueryParams";
  MaskedRequestFieldsAttribute := "maskedRequestFields";
  MaskedResponseFieldsAttribute := "maskedResponseFields";
  trace_TraceIDKey := "traceId";
  MaskFields := fun _ body _ => body;
  MaskQueryParams := fun uri _ => uri;
  util_MinifyJSON := string_of_list_byte;
  iam_RetrieveJWTClaims := fun _ => None;
  publicsourceip_PublicIP := fun _ => "203.0.113.7"
|}.

(** A POST request with the given content type and body stream. *)
Definition sampleRequest (contentType : string) (body : ioutil.Reader) : Request :=
  mkRequest "POST" "/v1/items?limit=2"
    {[ "Content-Type" := [contentType] ]} body ∅ (Some "createItem").

Definition sampleResponse : Response HTTPResponseWriter :=
  mkResponse (mkHTTPResponseWriter ∅ [] None) 200 0.

(** A handler that reads nothing and answers with the given content type and
    bytes, through the interceptor. *)
Definition sampleChain (contentType : string) (payload : list Byte.byte) : FilterChain :=
  fun req resp =>
    let w := ResponseWriter (Writer resp) in
    let w' := mkHTTPResponseWriter (<[ "Content-Type" := [contentType] ]> (header w))
                (written w ++ payload)%list (Some 200) in
    (req, mkResponse (mkInterceptor w' (data (Writer resp) ++ payload)%list)
            200 (len payload)).

Definition sampleClock : Clock := mkClock "2022-05-04T10:00:00.000Z" 12.

(** The first run of the filter in a process that left the standard logger
    at its level, Info; and in one that raised it to Warn. *)
Definition sampleLogging : Logging := mkLogging None logrus.InfoLevel.
Definition warnLogging : Logging := mkLogging None logrus.WarnLevel.

(** The configuration of a process started with body capture switched on. *)
Definition enabledConfig : Config :=
  fst (init {[ "FULL_ACCESS_LOG_ENABLED" := "true" ]}).

(** The configuration of a process started with an empty environment. *)
Definition defaultConfig : Config := fst (init ∅).

(** The configuration of a process started with body capture switched on and
    a negative maximum body size. *)
Definition negativeMaxConfig : Config :=
  fst (init {[ "FULL_ACCESS_LOG_ENABLED" := "true";
               "FULL_ACCESS_LOG_MAX_BODY_SIZE" := "-1" ]}).

(** A body stream that delivers the given text in one piece and ends. *)
Definition textBody (text : string) : ioutil.Reader :=
  ioutil.Chunk (list_byte_of_string text) ioutil.EOF.

(** A body stream that delivers three bytes and then breaks. *)
Definition brokenBody : ioutil.Reader :=
  ioutil.Chunk (list_byte_of_string "abc") (ioutil.Fail "unexpected EOF").

(** Collaborators whose [MaskFields] replaces the whole body by stars. *)
Definition starCollaborators : Collaborators := {|
  constant_Referer := "Referer";
  constant_UserAgent := "User-Agent";
  constant_ContentType := "Content-Type";
  NamespaceAttribute := "namespace";
  UserIDAttribute := "userId";
  ClientIDAttribute := "clientId";
  MaskedQueryParamsAttribute := "maskedQueryParams";
  MaskedRequestFieldsAttribute := "maskedRequestFields";
  MaskedResponseFieldsAttribute := "maskedResponseFields";
  trace_TraceIDKey := "traceId";
  MaskFields := fun _ _ _ => "***";
  MaskQueryParams := fun uri _ => uri;
  util_MinifyJSON := string_of_list_byte;
  iam_RetrieveJWTClaims := fun _ => None;
  publicsourceip_PublicIP := fun _ => "203.0.113.7"
|}.

(** A chain that attaches one attribute to the request after the handler. *)
Definition attachAttribute (name value : string) (chain : FilterChain) : FilterChain :=
  fun req resp =>
    let '(req', resp') := chain req resp in
    (mkRequest (Method req') (RequestURI req') (Header req') (Body req')
       (<[ name := value ]> (attributes req')) (SelectedRoute req'),
     resp').

(** ** Facts about the library functions *)

#[local] Arguments String.append !s1 s2 : simpl nomatch.

Lemma append_empty_r (s : string) : s ++ "" = s.
Proof. induction s as [|c s IH]; simpl; [reflexivity | now rewrite IH]. Qed.

Lemma append_assoc (a b c : string) : (a ++ b) ++ c = a ++ b ++ c.
Proof. induction a as [|x a IH]; simpl; [reflexivity | now rewrite IH]. Qed.

(** [HasPrefix s p] holds exactly when [s] is [p] followed by something. *)
Lemma HasPrefix_spec (s p : string) :
  GoStrings.HasPrefix s p = true <-> exists post, s = p ++ post.
Proof.
  revert s. induction p as [|x p IH]; intros s; simpl.
  - split; [intros _; now exists s | intros _; now destruct s].
  - destruct s as [|c s].
    + split; [discriminate | intros [post Hp]; discriminate].
    + simpl. destruct (Ascii.eqb_spec c x) as [->|Hne].
      * rewrite IH. split; intros [post Hp]; exists post.
        -- now rewrite Hp.
        -- now injection Hp.
      * split; [discriminate | intros [post Hp]; injection Hp; intros _ Hc; contradiction].
Qed.

Lemma Contains_unfold (s substr : string) :
  GoStrings.Contains s substr =
  if GoStrings.HasPrefix s substr then true
  else match s with
       | EmptyString => false
       | String _ s' => GoStrings.Contains s' substr
       end.
Proof. destruct s; reflexivity. Qed.

(** [Contains s substr] holds exactly when [substr] occurs in [s]. *)
Lemma Contains_spec (s substr : string) :
  GoStrings.Contains s substr = true <-> exists pre post, s = pre ++ substr ++ post.
Proof.
  induction s as [|c s IH]; rewrite Contains_unfold.
  - destruct (GoStrings.HasPrefix "" substr) eqn:Hp.
    + apply HasPrefix_spec in Hp as [post Hp].
      split; [intros _; exists "", post; exact Hp | reflexivity].
    + split; [discriminate |].
      intros (pre & post & Heq). destruct pre as [|x pre]; [|discriminate].
      assert (GoStrings.HasPrefix "" substr = true) as Ht
        by (apply HasPrefix_spec; now exists post).
      congruence.
  - destruct (GoStrings.HasPrefix (String c s) substr) eqn:Hp.
    + apply HasPrefix_spec in Hp as [post Hp].
      split; [intros _; exists "", post; exact Hp | reflexivity].
    + rewrite IH. split.
      * intros (pre & post & ->). now exists (String c pre), post.
      * intros (pre & post & Heq). destruct pre as [|x pre].
        -- assert (GoStrings.HasPrefix (String c s) substr = true) as Ht
             by (apply HasPrefix_spec; now exists post).
           congruence.
        -- injection Heq as _ ->. now exists pre, post.
Qed.

Lemma Contains_empty (s : string) : GoStrings.Contains s "" = true.
Proof. destruct s; reflexivity. Qed.

(** [Split] never returns the empty list. *)
Lemma Split_nonempty (s : string) (sep : ascii) : GoStrings.Split s sep <> [].
Proof.
  induction s as [|c s IH]; simpl; [discriminate |].
  destruct (Ascii.eqb c sep); [discriminate |].
  destruct (GoStrings.Split s sep); [contradiction | discriminate].
Qed.

(** The loop of [isSupportedContentType] finds an entry exactly when one of
    the supported types occurs in the content type. *)
Lemma isSupportedIn_spec (types : list string) (contentType : string) :
  isSupportedIn types contentType = true <->
  exists v, In v types /\ GoStrings.Contains contentType v = true.
Proof.
  induction types as [|t types IH]; simpl.
  - split; [discriminate | intros (v & [] & _)].
  - destruct (GoStrings.Contains contentType t) eqn:Hc.
    + split; [intros _; exists t; auto | reflexivity].
    + rewrite IH. split.
      * intros (v & Hin & Hv). exists v; auto.
      * intros (v & [<-|Hin] & Hv); [congruence | exists v; auto].
Qed.

(** [ReadAll] over a reader that has been read to its end gives no bytes and
    the same end. *)
Lemma ReadAll_drained (r : ioutil.Reader) :
  ioutil.ReadAll (ioutil.drained r) = ([], snd (ioutil.ReadAll r)).
Proof.
  induction r as [| e | b rest IH]; simpl; try reflexivity.
  rewrite IH. now destruct (ioutil.ReadAll rest).
Qed.

Lemma ReadAll_NewBuffer (buf : list Byte.byte) :
  ioutil.ReadAll (ioutil.NopCloser_NewBuffer buf) = (buf, None).
Proof. simpl. now rewrite app_nil_r. Qed.

Lemma len_zero (b : list Byte.byte) : (len b =? 0) = true <-> b = [].
Proof.
  unfold len. rewrite Z.eqb_eq. destruct b; simpl; split; intros Hb;
    try reflexivity; try discriminate; lia.
Qed.

Lemma len_nonneg (b : list Byte.byte) : 0 <= len b.
Proof. unfold len. lia. Qed.

(** The library functions on the inputs the filter meets. *)
Example Split_content_types :
  GoStrings.Split "application/json,text/csv" "," = ["application/json"; "text/csv"]
  /\ GoStrings.Split "" "," = [""]
  /\ GoStrings.Split "a,,b," "," = ["a"; ""; "b"; ""].
Proof. repeat split. Qed.

Example ParseBool_spellings :
  strconv.ParseBool "TRUE" = (true, None)
  /\ strconv.ParseBool "f" = (false, None)
  /\ strconv.ParseBool "on" = (false, Some (strconv.syntaxError "ParseBool" "on")).
Proof. repeat split. Qed.

Example ParseInt_base_prefixes :
  strconv.ParseInt "10240" = (10240, None)
  /\ strconv.ParseInt "0x2800" = (10240, None)
  /\ strconv.ParseInt "0o24000" = (10240, None)
  /\ strconv.ParseInt "024000" = (10240, None)
  /\ strconv.ParseInt "10_240" = (10240, None)
  /\ strconv.ParseInt "+7" = (7, None)
  /\ strconv.ParseInt "-7" = (-7, None)
  /\ strconv.ParseInt "-9223372036854775808" = (-9223372036854775808, None)
  /\ strconv.ParseInt "" = (0, Some (strconv.syntaxError "ParseInt" ""))
  /\ strconv.ParseInt "1__0" = (0, Some (strconv.syntaxError "ParseInt" "1__0"))
  /\ strconv.ParseInt "9223372036854775808"
     = (9223372036854775807, Some (strconv.rangeError "ParseInt" "9223372036854775808"))
  /\ strconv.ParseInt "-9223372036854775809"
     = (-9223372036854775808, Some (strconv.rangeError "ParseInt" "-9223372036854775809")).
Proof. repeat split; vm_compute; reflexivity. Qed.

Example escapeNewlines_two_lines :
  escapeNewlines (list_byte_of_string (String "a" (String CR (String LF "b")))) = "a\r\nb".
Proof. reflexivity. Qed.

(** [isSupportedContentType] alone accepts every content type, the empty
    one too, once the set holds the empty entry (an environment value that
    is empty or ends with a comma). *)
Lemma empty_entry_supports_everything (cfg : Config) (contentType : string) :
  In "" (FullAccessLogSupportedContentTypes cfg) ->
  isSupportedContentType cfg contentType = true.
Proof.
  intros Hin. apply isSupportedIn_spec. exists "". split; [assumption|].
  apply Contains_empty.
Qed.

(** ** Body capture *)

Section CaptureProperties.
Context `{Collaborators}.

(** The early return of [getRequestBody]: nothing is read, nothing is
    logged, the request is left as it is. *)
Lemma getRequestBody_ineligible (cfg : Config) (req : Request) (contentType : string) :
  contentType = "" \/ isSupportedContentType cfg contentType = false ->
  getRequestBody cfg req contentType = ("", req, []).
Proof.
  intros [-> | Hns]; unfold getRequestBody.
  - reflexivity.
  - rewrite Hns. now rewrite orb_true_r.
Qed.

Lemma getResponseBody_ineligible (cfg : Config) (w : ResponseWriterInterceptor)
    (contentType : string) :
  contentType = "" \/ isSupportedContentType cfg contentType = false ->
  getResponseBody cfg w contentType = "".
Proof.
  intros [-> | Hns]; unfold getResponseBody.
  - reflexivity.
  - rewrite Hns. now rewrite orb_true_r.
Qed.

(** The guard of both capture functions is passed exactly by a non-empty,
    supported content type. *)
Lemma eligible_guard (cfg : Config) (contentType : string) :
  contentType <> "" -> isSupportedContentType cfg contentType = true ->
  (contentType =? "")%string || negb (isSupportedContentType cfg contentType) = false.
Proof.
  intros Hne Hs. rewrite Hs. simpl. rewrite orb_false_r.
  now apply String.eqb_neq.
Qed.

(** What [getRequestBody] does on an eligible content type, in terms of
    the bytes [ReadAll] returns. *)
Lemma getRequestBody_eligible (cfg : Config) (req : Request) (contentType : string) :
  contentType <> "" -> isSupportedContentType cfg contentType = true ->
  let bodyBytes := fst (ioutil.ReadAll (Body req)) in
  let logs := match snd (ioutil.ReadAll (Body req)) with
              | Some e => [logrus.Errorf "failed to read request body: %v" (logrus.ArgString e)]
              | None => []
              end in
  getRequestBody cfg req contentType =
  if negb (len bodyBytes =? 0)
  then (if len bodyBytes >? FullAccessLogMaxBodySize cfg then "data too large"
        else if GoStrings.Contains contentType "application/json"
        then util_MinifyJSON bodyBytes
        else escapeNewlines bodyBytes,
        setBody req (ioutil.NopCloser_NewBuffer bodyBytes), logs)
  else ("", setBody req (ioutil.drained (Body req)), logs).
Proof.
  intros Hne Hs. unfold getRequestBody. rewrite (eligible_guard _ _ Hne Hs).
  destruct (ioutil.ReadAll (Body req)) as [bodyBytes err]. simpl.
  destruct (negb (len bodyBytes =? 0)); [|reflexivity].
  destruct (len bodyBytes >? FullAccessLogMaxBodySize cfg); [reflexivity|].
  now destruct (GoStrings.Contains contentType "application/json").
Qed.

(** The request [getRequestBody] leaves behind: the original one, with a
    fresh buffer over the bytes read when there are some, and with the
    original stream at its end when a read took place and gave nothing. *)
Lemma getRequestBody_request (cfg : Config) (req : Request) (contentType : string) :
  snd (fst (getRequestBody cfg req contentType)) =
  if (contentType =? "")%string || negb (isSupportedContentType cfg contentType)
  then req
  else if len (fst (ioutil.ReadAll (Body req))) =? 0
  then setBody req (ioutil.drained (Body req))
  else setBody req (ioutil.NopCloser_NewBuffer (fst (ioutil.ReadAll (Body req)))).
Proof.
  unfold getRequestBody.
  destruct ((contentType =? "")%string || negb (isSupportedContentType cfg contentType));
    [reflexivity|].
  destruct (ioutil.ReadAll (Body req)) as [bodyBytes err]. simpl.
  destruct (len bodyBytes =? 0); simpl; [reflexivity|].
  destruct (len bodyBytes >? FullAccessLogMaxBodySize cfg); [reflexivity|].
  now destruct (GoStrings.Contains contentType "application/json").
Qed.

(** C3. After [getRequestBody] returns, the body stream of the request
    yields, read from its start, exactly the bytes the original stream
    held, whatever the capture returned (the body, the "data too large"
    sentinel or the empty string); when the original read succeeds the
    restored stream also ends cleanly; the rest of the request is
    untouched. *)
Theorem getRequestBody_restores_body (cfg : Config) (req : Request) (contentType : string) :
  let req' := snd (fst (getRequestBody cfg req contentType)) in
  fst (ioutil.ReadAll (Body req')) = fst (ioutil.ReadAll (Body req))
  /\ (snd (ioutil.ReadAll (Body req)) = None ->
      ioutil.ReadAll (Body req') = ioutil.ReadAll (Body req))
  /\ setBody req' (Body req) = req.
Proof.
  cbv zeta. rewrite getRequestBody_request.
  destruct req as [m u h b a r]. cbn [Body].
  destruct ((contentType =? "")%string || negb (isSupportedContentType cfg contentType)).
  - (* nothing was read *)
    auto.
  - destruct (ioutil.ReadAll b) as [bodyBytes err] eqn:Hread. cbn [fst snd].
    destruct (len bodyBytes =? 0) eqn:Hlen.
    + (* the stream gave no byte and is left at its end *)
      apply len_zero in Hlen. subst bodyBytes.
      cbn [setBody Body]. rewrite ReadAll_drained, Hread. auto.
    + (* the bytes read are put back behind a fresh buffer *)
      cbn [setBody Body]. rewrite ReadAll_NewBuffer.
      repeat split. now intros ->.
Qed.

(** C5. For every content type that is empty or not supported, both
    capture functions return the empty string, whatever the body holds;
    [getRequestBody] does not even read the body. *)
Theorem capture_ineligible_content_type (cfg : Config) (contentType : string)
    (Hin : contentType = "" \/ isSupportedContentType cfg contentType = false) :
  (forall req : Request, getRequestBody cfg req contentType = ("", req, []))
  /\ (forall w : ResponseWriterInterceptor, getResponseBody cfg w contentType = "").
Proof.
  split; intros x.
  - now apply getRequestBody_ineligible.
  - now apply getResponseBody_ineligible.
Qed.

(** C6. [isSupportedContentType] answers true exactly when some entry of
    the configured set occurs in the content type as a substring; so the
    entry application/json accepts a content type that carries a charset
    parameter; and the capture functions never treat the empty content
    type as eligible, even when the set holds the empty entry, which
    occurs in every string. *)
Theorem isSupportedContentType_substring (cfg : Config) (contentType : string) :
  (isSupportedContentType cfg contentType = true <->
   exists v pre post,
     In v (FullAccessLogSupportedContentTypes cfg) /\ contentType = pre ++ v ++ post)
  /\ isSupportedContentType
       (setSupportedContentTypes cfg ["application/json"])
       "application/json; charset=utf-8" = true
  /\ (forall req : Request, getRequestBody cfg req "" = ("", req, []))
  /\ (forall w : ResponseWriterInterceptor, getResponseBody cfg w "" = "").
Proof.
  repeat split.
  - intros Hs. apply isSupportedIn_spec in Hs as (v & Hin & Hc).
    apply Contains_spec in Hc as (pre & post & Heq). now exists v, pre, post.
  - intros (v & pre & post & Hin & Heq). apply isSupportedIn_spec.
    exists v. split; [assumption|]. apply Contains_spec. now exists pre, post.
Qed.

(** C4, amended. For an eligible, non-empty content type and a body longer
    than the configured maximum, [getResponseBody] returns exactly
    "data too large", and so does [getRequestBody] as soon as at least one
    byte was read, which is always the case when the maximum is not
    negative; the content of the body plays no part. *)
Theorem oversized_body_sentinel (cfg : Config) (contentType : string)
    (Hne : contentType <> "") (Hs : isSupportedContentType cfg contentType = true) :
  (forall w : ResponseWriterInterceptor,
     len (data w) > FullAccessLogMaxBodySize cfg ->
     getResponseBody cfg w contentType = "data too large")
  /\ (forall req : Request,
       len (fst (ioutil.ReadAll (Body req))) > FullAccessLogMaxBodySize cfg ->
       fst (ioutil.ReadAll (Body req)) <> [] ->
       fst (fst (getRequestBody cfg req contentType)) = "data too large")
  /\ (0 <= FullAccessLogMaxBodySize cfg ->
      forall req : Request,
        len (fst (ioutil.ReadAll (Body req))) > FullAccessLogMaxBodySize cfg ->
        fst (fst (getRequestBody cfg req contentType)) = "data too large").
Proof.
  assert (Hreq : forall req : Request,
             len (fst (ioutil.ReadAll (Body req))) > FullAccessLogMaxBodySize cfg ->
             fst (ioutil.ReadAll (Body req)) <> [] ->
             fst (fst (getRequestBody cfg req contentType)) = "data too large").
  { intros req Hlen Hbytes. rewrite getRequestBody_eligible by assumption.
    destruct (len (fst (ioutil.ReadAll (Body req))) =? 0) eqn:Hz.
    - apply len_zero in Hz. contradiction.
    - simpl. apply Z.gt_lt, Z.gtb_lt in Hlen. now rewrite Hlen. }
  repeat split.
  - intros w Hlen. unfold getResponseBody. rewrite (eligible_guard _ _ Hne Hs).
    apply Z.gt_lt, Z.gtb_lt in Hlen. now rewrite Hlen.
  - exact Hreq.
  - intros Hmax req Hlen. apply Hreq; [assumption|].
    intros Hnil. rewrite Hnil in Hlen. unfold len in Hlen. simpl in Hlen. lia.
Qed.

End CaptureProperties.

(** ** The assembled record *)

Lemma precedence_fallback (req : Request) (name claim : string) :
  precedence (Attribute req name) (Some claim)
    (fallback (attributeOrEmpty req name) claim).
Proof.
  unfold precedence, fallback, attributeOrEmpty.
  destruct (Attribute req name) as [v|]; repeat split.
  - intros v' [= <-] Hv. apply String.eqb_neq in Hv. now rewrite Hv.
  - intros [Hn|[= ->]] c [= <-]; [discriminate | reflexivity].
  - discriminate.
  - discriminate.
  - intros _ c [= <-]. reflexivity.
  - discriminate.
Qed.

Lemma precedence_no_token (req : Request) (name : string) :
  precedence (Attribute req name) None (attributeOrEmpty req name).
Proof.
  unfold precedence, attributeOrEmpty.
  destruct (Attribute req name) as [v|]; repeat split;
    try discriminate; try reflexivity.
  - now intros v' [= <-] _.
  - now intros [Hn|[= ->]] _.
Qed.

(** The two body fields sit in the line between their AB[ and ]AB marks. *)
Lemma fullAccessLogFormat_bodies (r : AccessRecord) :
  fullAccessLogFormat r =
  lineHead r
  ++ " request_body=AB[" ++ rec_request_body r ++ "]AB"
  ++ " response_content_type=" ++ dq ++ rec_response_content_type r ++ dq
  ++ " response_body=AB[" ++ rec_response_body r ++ "]AB"
  ++ lineTail r.
Proof.
  unfold fullAccessLogFormat, lineHead, lineTail.
  repeat rewrite append_assoc. reflexivity.
Qed.

Section RecordProperties.
Context `{Collaborators}.

Ltac run_filter cfg req resp chain :=
  unfold AccessLog, captureStep, intercepted;
  destruct (FullAccessLogEnabled cfg);
  destruct (FullAccessLogRequestBodyEnabled cfg);
  destruct (FullAccessLogResponseBodyEnabled cfg); simpl;
  try destruct (getRequestBody cfg req (HeaderParameter req constant_ContentType))
    as [[? ?] ?];
  simpl;
  match goal with
  | |- context [chain ?a ?b] => destruct (chain a b) as [? ?] eqn:?
  end;
  match goal with
  | |- context [iam_RetrieveJWTClaims ?a] => destruct (iam_RetrieveJWTClaims a) eqn:?
  end;
  simpl; repeat split; auto; try (symmetry; assumption).

(** The filter always runs the rest of the chain, on the request the
    capture step leaves and on the intercepted response, and always calls
    [Infof] of the access logger on the formatted record; the access logger
    is the one the package variable holds, or a new one at the level of the
    standard logger. *)
Lemma AccessLog_forwards (cfg : Config) (lg : Logging) (clock : Clock) (req : Request)
    (resp : Response HTTPResponseWriter) (chain : FilterChain) :
  let out := AccessLog cfg lg clock req resp chain in
  forwarded out = snd (fst (captureStep cfg req))
  /\ errors out = snd (captureStep cfg req)
  /\ (request_after out, response_after out) = chain (forwarded out) (intercepted resp)
  /\ emitted out = Infof (accessLogger lg) (fullAccessLogFormat (logged out))
  /\ logger_after out = accessLogger lg.
Proof. run_filter cfg req resp chain. Qed.

(** What the access logger writes is nothing, or the one formatted line. *)
Lemma Infof_lines (logger : logrus.Logger) (message line : string) :
  In line (Infof logger message) -> line = Format message.
Proof.
  unfold Infof. destruct (logrus.IsLevelEnabled logger logrus.InfoLevel); simpl;
    [now intros [<-|[]] | tauto].
Qed.

(** The two body fields of the record. *)
Lemma AccessLog_request_body (cfg : Config) (lg : Logging) (clock : Clock) (req : Request)
    (resp : Response HTTPResponseWriter) (chain : FilterChain) :
  let out := AccessLog cfg lg clock req resp chain in
  rec_request_body (logged out) =
  if FullAccessLogEnabled cfg && FullAccessLogRequestBodyEnabled cfg
  then maskBody MaskFields (request_after out) MaskedRequestFieldsAttribute
         (HeaderParameter req constant_ContentType)
         (fst (fst (getRequestBody cfg req (HeaderParameter req constant_ContentType))))
  else "-".
Proof. run_filter cfg req resp chain. Qed.

Lemma AccessLog_response_body (cfg : Config) (lg : Logging) (clock : Clock) (req : Request)
    (resp : Response HTTPResponseWriter) (chain : FilterChain) :
  let out := AccessLog cfg lg clock req resp chain in
  let responseContentType :=
    HeaderGet (header (ResponseWriter (Writer (response_after out)))) constant_ContentType in
  rec_response_body (logged out) =
  if FullAccessLogEnabled cfg && FullAccessLogResponseBodyEnabled cfg
  then maskBody MaskFields (request_after out) MaskedResponseFieldsAttribute
         responseContentType
         (getResponseBody cfg (Writer (response_after out)) responseContentType)
  else "-".
Proof. run_filter cfg req resp chain. Qed.

Lemma AccessLog_content_types (cfg : Config) (lg : Logging) (clock : Clock) (req : Request)
    (resp : Response HTTPResponseWriter) (chain : FilterChain) :
  let out := AccessLog cfg lg clock req resp chain in
  rec_request_content_type (logged out) = HeaderParameter req constant_ContentType
  /\ rec_response_content_type (logged out) =
     HeaderGet (header (ResponseWriter (Writer (response_after out)))) constant_ContentType.
Proof. run_filter cfg req resp chain. Qed.

Lemma maskBody_empty (mask : string -> string -> string -> string)
    (req : Request) (name contentType : string) :
  maskBody mask req name contentType "" = "".
Proof. unfold maskBody. now destruct (Attribute req name). Qed.

(** C1, amended. For every request whose body read fails, the error is
    logged and the filter still runs the rest of the chain; the capture is
    computed from the bytes read before the failure, exactly as for a stream
    that ends cleanly after these bytes, so it is the empty string when no
    byte was read; the forwarded request carries the bytes read. *)
Theorem read_failure_is_not_fatal (cfg : Config) (lg : Logging) (clock : Clock) (req : Request)
    (resp : Response HTTPResponseWriter) (chain : FilterChain) (e : string)
    (Hfail : snd (ioutil.ReadAll (Body req)) = Some e) :
  let partial := fst (ioutil.ReadAll (Body req)) in
  let out := AccessLog cfg lg clock req resp chain in
  (forall contentType,
     contentType <> "" -> isSupportedContentType cfg contentType = true ->
     snd (getRequestBody cfg req contentType) =
       [logrus.Errorf "failed to read request body: %v" (logrus.ArgString e)]
     /\ fst (fst (getRequestBody cfg req contentType)) =
        fst (fst (getRequestBody cfg
                    (setBody req (ioutil.NopCloser_NewBuffer partial)) contentType))
     /\ (partial = [] -> fst (fst (getRequestBody cfg req contentType)) = ""))
  /\ (request_after out, response_after out) = chain (forwarded out) (intercepted resp)
  /\ fst (ioutil.ReadAll (Body (forwarded out))) = partial.
Proof.
  intros partial out. split; [|split].
  - intros contentType Hne Hs.
    rewrite !getRequestBody_eligible by assumption.
    destruct req as [m u h b a r]. simpl in *. rewrite app_nil_r. fold partial.
    rewrite Hfail. destruct (len partial =? 0) eqn:Hz; simpl.
    + repeat split.
    + repeat split. intros Hnil. apply len_zero in Hnil. congruence.
  - exact (proj1 (proj2 (proj2 (AccessLog_forwards cfg lg clock req resp chain)))).
  - destruct (AccessLog_forwards cfg lg clock req resp chain) as (Hfw & _).
    subst out partial. rewrite Hfw. unfold captureStep.
    destruct (FullAccessLogEnabled cfg && FullAccessLogRequestBodyEnabled cfg);
      [|reflexivity].
    rewrite getRequestBody_request.
    destruct (_ || _); [reflexivity|].
    destruct (len (fst (ioutil.ReadAll (Body req))) =? 0) eqn:Hz; cbn [setBody Body].
    + apply len_zero in Hz. rewrite Hz, ReadAll_drained. reflexivity.
    + rewrite ReadAll_NewBuffer. reflexivity.
Qed.

(** C7. When the master capture flag is off, the request body and the
    response body of the record are both the sentinel "-", the formatted
    record carries AB[-]AB in both places, and every line the access logger
    writes for the transaction is that record, for every request, response
    and payload. *)
Theorem capture_disabled_bodies_dash (cfg : Config) (lg : Logging) (clock : Clock) (req : Request)
    (resp : Response HTTPResponseWriter) (chain : FilterChain)
    (Hoff : FullAccessLogEnabled cfg = false) :
  let out := AccessLog cfg lg clock req resp chain in
  let rendered :=
    lineHead (logged out)
    ++ " request_body=AB[-]AB"
    ++ " response_content_type=" ++ dq ++ rec_response_content_type (logged out) ++ dq
    ++ " response_body=AB[-]AB"
    ++ lineTail (logged out) in
  rec_request_body (logged out) = "-"
  /\ rec_response_body (logged out) = "-"
  /\ fullAccessLogFormat (logged out) = rendered
  /\ (forall line, In line (emitted out) -> line = Format rendered).
Proof.
  intros out rendered.
  assert (Hreq : rec_request_body (logged out) = "-")
    by (subst out; rewrite AccessLog_request_body, Hoff; reflexivity).
  assert (Hresp : rec_response_body (logged out) = "-")
    by (subst out; rewrite AccessLog_response_body, Hoff; reflexivity).
  assert (Hrendered : fullAccessLogFormat (logged out) = rendered)
    by (rewrite fullAccessLogFormat_bodies, Hreq, Hresp; reflexivity).
  split; [exact Hreq | split; [exact Hresp | split; [exact Hrendered|]]].
  destruct (AccessLog_forwards cfg lg clock req resp chain) as (_ & _ & _ & Hem & _).
  fold out in Hem. rewrite Hem, <- Hrendered. intros line. apply Infof_lines.
Qed.

(** C8, amended. For each of namespace, user id and client id of the
    record: the value attached to the request as an attribute wins when it
    is not empty; when it is absent or empty the field is the matching claim
    of the token, if the request has one; when there is neither the field is
    the empty string. The identity plays no part in whether the line is
    written: the access logger writes the one line of the record exactly when
    its level admits Info, and nothing otherwise. *)
Theorem identity_precedence (cfg : Config) (lg : Logging) (clock : Clock) (req : Request)
    (resp : Response HTTPResponseWriter) (chain : FilterChain) :
  let out := AccessLog cfg lg clock req resp chain in
  let req' := request_after out in
  let jwtClaims := iam_RetrieveJWTClaims req' in
  precedence (Attribute req' NamespaceAttribute) (option_map Namespace jwtClaims)
    (rec_namespace (logged out))
  /\ precedence (Attribute req' UserIDAttribute) (option_map Subject jwtClaims)
       (rec_user_id (logged out))
  /\ precedence (Attribute req' ClientIDAttribute) (option_map ClientID jwtClaims)
       (rec_client_id (logged out))
  /\ emitted out =
     (if logrus.IsLevelEnabled (accessLogger lg) logrus.InfoLevel
      then [Format (fullAccessLogFormat (logged out))]
      else []).
Proof.
  unfold AccessLog, Infof.
  destruct (if FullAccessLogEnabled cfg then _ else _) as [[requestBody req1] errs].
  destruct (chain req1 _) as [req2 resp2]. simpl.
  destruct (iam_RetrieveJWTClaims req2) as [jwtClaims|] eqn:Hclaims; simpl;
    rewrite ?Hclaims; simpl;
    (split; [|split; [|split]]);
    first [apply precedence_fallback | apply precedence_no_token | reflexivity].
Qed.

(** C10, amended. A body field is "-" whenever the master flag or the flag
    of its direction is off; with both on and a content type that is empty
    or unsupported it is the empty string, rendered AB[]AB, never "-"; so
    next to an empty or unsupported content type a "-" appears only when the
    master flag or the flag of the direction is off. The formatted record,
    and so every line the access logger writes for the transaction, carries
    the two fields between their AB[ and ]AB marks. *)
Theorem body_fields_disabled_or_ineligible (cfg : Config) (lg : Logging) (clock : Clock) (req : Request)
    (resp : Response HTTPResponseWriter) (chain : FilterChain) :
  let out := AccessLog cfg lg clock req resp chain in
  let requestContentType := rec_request_content_type (logged out) in
  let responseContentType := rec_response_content_type (logged out) in
  let ineligible contentType :=
    contentType = "" \/ isSupportedContentType cfg contentType = false in
  (FullAccessLogEnabled cfg = false \/ FullAccessLogRequestBodyEnabled cfg = false ->
   rec_request_body (logged out) = "-")
  /\ (FullAccessLogEnabled cfg = false \/ FullAccessLogResponseBodyEnabled cfg = false ->
      rec_response_body (logged out) = "-")
  /\ (FullAccessLogEnabled cfg = true -> FullAccessLogRequestBodyEnabled cfg = true ->
      ineligible requestContentType -> rec_request_body (logged out) = "")
  /\ (FullAccessLogEnabled cfg = true -> FullAccessLogResponseBodyEnabled cfg = true ->
      ineligible responseContentType -> rec_response_body (logged out) = "")
  /\ (ineligible requestContentType -> rec_request_body (logged out) = "-" ->
      FullAccessLogEnabled cfg = false \/ FullAccessLogRequestBodyEnabled cfg = false)
  /\ (ineligible responseContentType -> rec_response_body (logged out) = "-" ->
      FullAccessLogEnabled cfg = false \/ FullAccessLogResponseBodyEnabled cfg = false)
  /\ fullAccessLogFormat (logged out) =
     lineHead (logged out)
     ++ " request_body=AB[" ++ rec_request_body (logged out) ++ "]AB"
     ++ " response_content_type=" ++ dq ++ responseContentType ++ dq
     ++ " response_body=AB[" ++ rec_response_body (logged out) ++ "]AB"
     ++ lineTail (logged out)
  /\ (forall line, In line (emitted out) ->
      line = Format (fullAccessLogFormat (logged out))).
Proof.
  intros out requestContentType responseContentType ineligible.
  destruct (AccessLog_content_types cfg lg clock req resp chain) as (Hrct & Hsct).
  fold out in Hrct, Hsct.
  pose proof (AccessLog_request_body cfg lg clock req resp chain) as Hreq.
  pose proof (AccessLog_response_body cfg lg clock req resp chain) as Hresp.
  cbv zeta in Hreq, Hresp. fold out in Hreq, Hresp.
  rewrite <- Hrct in Hreq. rewrite <- Hsct in Hresp.
  fold requestContentType in Hreq. fold responseContentType in Hresp.
  assert (Hreq_in : FullAccessLogEnabled cfg = true ->
                    FullAccessLogRequestBodyEnabled cfg = true ->
                    ineligible requestContentType -> rec_request_body (logged out) = "").
  { intros He Hd Hin. rewrite Hreq, He, Hd. cbn [andb].
    rewrite (getRequestBody_ineligible _ _ _ Hin). apply maskBody_empty. }
  assert (Hresp_in : FullAccessLogEnabled cfg = true ->
                     FullAccessLogResponseBodyEnabled cfg = true ->
                     ineligible responseContentType -> rec_response_body (logged out) = "").
  { intros He Hd Hin. rewrite Hresp, He, Hd. cbn [andb].
    rewrite (getResponseBody_ineligible _ _ _ Hin). apply maskBody_empty. }
  split; [|split; [|split; [|split; [|split; [|split; [|split]]]]]].
  - intros [Hf|Hf]; rewrite Hreq, Hf; [reflexivity | now rewrite andb_false_r].
  - intros [Hf|Hf]; rewrite Hresp, Hf; [reflexivity | now rewrite andb_false_r].
  - exact Hreq_in.
  - exact Hresp_in.
  - intros Hin Hdash.
    destruct (FullAccessLogEnabled cfg) eqn:He; [|now left].
    destruct (FullAccessLogRequestBodyEnabled cfg) eqn:Hd; [|now right].
    rewrite Hreq_in in Hdash by auto. discriminate.
  - intros Hin Hdash.
    destruct (FullAccessLogEnabled cfg) eqn:He; [|now left].
    destruct (FullAccessLogResponseBodyEnabled cfg) eqn:Hd; [|now right].
    rewrite Hresp_in in Hdash by auto. discriminate.
  - apply fullAccessLogFormat_bodies.
  - destruct (AccessLog_forwards cfg lg clock req resp chain) as (_ & _ & _ & Hem & _).
    fold out in Hem. rewrite Hem. intros line. apply Infof_lines.
Qed.

End RecordProperties.

(** ** Start-up configuration *)

(** [int64_wrap] keeps what fits in 63 bits. *)
Lemma int64_wrap_small (z : Z) : 0 <= z < 2 ^ 63 -> strconv.int64_wrap z = z.
Proof.
  intros Hz. unfold strconv.int64_wrap.
  rewrite Z.mod_small by lia. lia.
Qed.

(** [ParseInt] returns a negative number only for an input that starts with
    the minus sign. *)
Lemma ParseInt_nonneg (s : string) :
  GoStrings.HasPrefix s "-" = false -> 0 <= fst (strconv.ParseInt s).
Proof.
  destruct s as [|c0 r0]; [intros _; simpl; lia|].
  intros Hminus. simpl in Hminus. unfold strconv.ParseInt.
  assert (Hneg : Ascii.eqb c0 "-" = false).
  { destruct (Ascii.eqb c0 "-"); [now destruct r0 | reflexivity]. }
  rewrite Hneg.
  assert (Hgen : forall s1 : string,
             0 <= fst (match strconv.ParseUint s1 with
                       | (_, Some (strconv.mkNumError _ _ strconv.ErrSyntax)) =>
                           (0, Some (strconv.syntaxError "ParseInt" (String c0 r0)))
                       | (un, _) =>
                           if negb false && (2 ^ 63 <=? un)%N
                           then (Z.of_N (2 ^ 63) - 1,
                                 Some (strconv.rangeError "ParseInt" (String c0 r0)))
                           else if false && (2 ^ 63 <? un)%N
                           then (- Z.of_N (2 ^ 63),
                                 Some (strconv.rangeError "ParseInt" (String c0 r0)))
                           else (strconv.int64_of_uint64 un, None)
                       end)).
  { intros s1. destruct (strconv.ParseUint s1) as [un [[fn num [|]]|]];
      cbn [negb andb fst]; try lia;
      (destruct (2 ^ 63 <=? un)%N eqn:Hcut; cbn [fst]; [lia|];
       apply N.leb_gt in Hcut; unfold strconv.int64_of_uint64;
       rewrite int64_wrap_small; lia). }
  destruct (Ascii.eqb c0 "+"); apply Hgen.
Qed.

(** The package variables after [init], setting by setting: an environment
    variable that exists is parsed and the value returned by the parser is
    stored, with or without a parse error. *)
Lemma init_values (env : gmap string string) :
  let cfg := fst (init env) in
  FullAccessLogEnabled cfg =
    match LookupEnv env "FULL_ACCESS_LOG_ENABLED" with
    | Some s => fst (strconv.ParseBool s)
    | None => false
    end
  /\ FullAccessLogSupportedContentTypes cfg =
    match LookupEnv env "FULL_ACCESS_LOG_SUPPORTED_CONTENT_TYPES" with
    | Some s => GoStrings.Split s ","
    | None => defaultSupportedContentTypes
    end
  /\ FullAccessLogMaxBodySize cfg =
    match LookupEnv env "FULL_ACCESS_LOG_MAX_BODY_SIZE" with
    | Some s => fst (strconv.ParseInt s)
    | None => 10240
    end
  /\ FullAccessLogRequestBodyEnabled cfg =
    match LookupEnv env "FULL_ACCESS_LOG_REQUEST_BODY_ENABLED" with
    | Some s => fst (strconv.ParseBool s)
    | None => true
    end
  /\ FullAccessLogResponseBodyEnabled cfg =
    match LookupEnv env "FULL_ACCESS_LOG_RESPONSE_BODY_ENABLED" with
    | Some s => fst (strconv.ParseBool s)
    | None => true
    end.
Proof.
  unfold init, initBool.
  destruct (LookupEnv env "FULL_ACCESS_LOG_ENABLED") as [s1|];
    [destruct (strconv.ParseBool s1)|];
    (destruct (LookupEnv env "FULL_ACCESS_LOG_SUPPORTED_CONTENT_TYPES") as [s2|]);
    (destruct (LookupEnv env "FULL_ACCESS_LOG_MAX_BODY_SIZE") as [s3|];
       [destruct (strconv.ParseInt s3)|]);
    (destruct (LookupEnv env "FULL_ACCESS_LOG_REQUEST_BODY_ENABLED") as [s4|];
       [destruct (strconv.ParseBool s4)|]);
    (destruct (LookupEnv env "FULL_ACCESS_LOG_RESPONSE_BODY_ENABLED") as [s5|];
       [destruct (strconv.ParseBool s5)|]);
    repeat split.
Qed.

(** [init] logs one error for each variable that exists and fails to parse,
    and nothing else. *)
Lemma init_errors (env : gmap string string) :
  let parseError {A} (key fmt : string) (parse : string -> A * option strconv.NumError) :=
    match LookupEnv env key with
    | Some s => logParseError fmt (snd (parse s))
    | None => []
    end in
  snd (init env) =
  (parseError "FULL_ACCESS_LOG_ENABLED"
     "Parse FULL_ACCESS_LOG_ENABLED env error: %v" strconv.ParseBool
   ++ parseError "FULL_ACCESS_LOG_MAX_BODY_SIZE"
        "Parse FULL_ACCESS_LOG_MAX_BODY_SIZE env error: %v" strconv.ParseInt
   ++ parseError "FULL_ACCESS_LOG_REQUEST_BODY_ENABLED"
        "Parse FULL_ACCESS_LOG_REQUEST_BODY_ENABLED env error: %v" strconv.ParseBool
   ++ parseError "FULL_ACCESS_LOG_RESPONSE_BODY_ENABLED"
        "Parse FULL_ACCESS_LOG_RESPONSE_BODY_ENABLED env error: %v" strconv.ParseBool)%list.
Proof.
  unfold init, initBool.
  destruct (LookupEnv env "FULL_ACCESS_LOG_ENABLED") as [s1|];
    [destruct (strconv.ParseBool s1)|];
    (destruct (LookupEnv env "FULL_ACCESS_LOG_SUPPORTED_CONTENT_TYPES") as [s2|]);
    (destruct (LookupEnv env "FULL_ACCESS_LOG_MAX_BODY_SIZE") as [s3|];
       [destruct (strconv.ParseInt s3)|]);
    (destruct (LookupEnv env "FULL_ACCESS_LOG_REQUEST_BODY_ENABLED") as [s4|];
       [destruct (strconv.ParseBool s4)|]);
    (destruct (LookupEnv env "FULL_ACCESS_LOG_RESPONSE_BODY_ENABLED") as [s5|];
       [destruct (strconv.ParseBool s5)|]);
    reflexivity.
Qed.

(** A boolean setting that fails to parse ends up [false], whatever its
    default. *)
Lemma ParseBool_failure (s : string) (e : strconv.NumError) :
  snd (strconv.ParseBool s) = Some e -> fst (strconv.ParseBool s) = false.
Proof.
  unfold strconv.ParseBool.
  destruct (_ || _); [discriminate|]. destruct (_ || _); reflexivity.
Qed.

(** Whatever the environment, a request-body or response-body switch whose
    value fails to parse is off after [init], and a maximum body size whose
    value is no number is 0. *)
Lemma init_parse_failure (env : gmap string string) (s : string) (e : strconv.NumError) :
  let cfg := fst (init env) in
  (LookupEnv env "FULL_ACCESS_LOG_REQUEST_BODY_ENABLED" = Some s ->
   snd (strconv.ParseBool s) = Some e -> FullAccessLogRequestBodyEnabled cfg = false)
  /\ (LookupEnv env "FULL_ACCESS_LOG_RESPONSE_BODY_ENABLED" = Some s ->
      snd (strconv.ParseBool s) = Some e -> FullAccessLogResponseBodyEnabled cfg = false)
  /\ (LookupEnv env "FULL_ACCESS_LOG_MAX_BODY_SIZE" = Some s ->
      snd (strconv.ParseInt s) = Some e -> strconv.Err e = strconv.ErrSyntax ->
      FullAccessLogMaxBodySize cfg = 0).
Proof.
  destruct (init_values env) as (_ & _ & Hmax & Hreq & Hresp). cbv zeta.
  rewrite Hmax, Hreq, Hresp. repeat split.
  - intros -> Herr. exact (ParseBool_failure _ _ Herr).
  - intros -> Herr. exact (ParseBool_failure _ _ Herr).
  - intros -> Herr Hsyn. revert Herr. unfold strconv.ParseInt.
    destruct s as [|c0 r0]; [reflexivity|].
    destruct (if Ascii.eqb c0 "+" then _ else _) as [neg s1].
    destruct (strconv.ParseUint s1) as [un [[fn num [|]]|]]; cbn [fst snd];
      try reflexivity;
      (destruct (negb neg && _); [intros [= <-]; discriminate|];
       destruct (neg && _); [intros [= <-]; discriminate | discriminate]).
Qed.

(** C2. On a value that fails to parse, [init] logs the error and stores the
    value the parser returns next to it, not the default: "yes" switches
    request-body and response-body capture off (default on), "10KB" sets the
    maximum body size to 0 and an out-of-range number sets it to the largest
    64-bit integer (default 10240); only the master flag ends at its
    default, false. *)
Theorem init_parse_failure_overwrites_default :
  init {[ "FULL_ACCESS_LOG_REQUEST_BODY_ENABLED" := "yes" ]} =
    (mkConfig false defaultSupportedContentTypes 10240 false true,
     [logrus.Errorf "Parse FULL_ACCESS_LOG_REQUEST_BODY_ENABLED env error: %v"
        (logrus.ArgNumError (strconv.syntaxError "ParseBool" "yes"))])
  /\ init {[ "FULL_ACCESS_LOG_RESPONSE_BODY_ENABLED" := "yes" ]} =
    (mkConfig false defaultSupportedContentTypes 10240 true false,
     [logrus.Errorf "Parse FULL_ACCESS_LOG_RESPONSE_BODY_ENABLED env error: %v"
        (logrus.ArgNumError (strconv.syntaxError "ParseBool" "yes"))])
  /\ init {[ "FULL_ACCESS_LOG_MAX_BODY_SIZE" := "10KB" ]} =
    (mkConfig false defaultSupportedContentTypes 0 true true,
     [logrus.Errorf "Parse FULL_ACCESS_LOG_MAX_BODY_SIZE env error: %v"
        (logrus.ArgNumError (strconv.syntaxError "ParseInt" "10KB"))])
  /\ init {[ "FULL_ACCESS_LOG_MAX_BODY_SIZE" := "99999999999999999999" ]} =
    (mkConfig false defaultSupportedContentTypes 9223372036854775807 true true,
     [logrus.Errorf "Parse FULL_ACCESS_LOG_MAX_BODY_SIZE env error: %v"
        (logrus.ArgNumError (strconv.rangeError "ParseInt" "99999999999999999999"))])
  /\ init {[ "FULL_ACCESS_LOG_ENABLED" := "yes" ]} =
    (mkConfig false defaultSupportedContentTypes 10240 true true,
     [logrus.Errorf "Parse FULL_ACCESS_LOG_ENABLED env error: %v"
        (logrus.ArgNumError (strconv.syntaxError "ParseBool" "yes"))]).
Proof. repeat split; vm_compute; reflexivity. Qed.

(** C9, amended. After [init], for every environment, the set of supported
    content types is not empty (it is the five default types when the
    variable is unset, and [Split] always returns at least one entry); the
    maximum body size is 10240 when its variable is unset and is not
    negative whenever the value does not start with a minus sign. *)
Theorem init_policy_invariant (env : gmap string string) :
  let cfg := fst (init env) in
  FullAccessLogSupportedContentTypes cfg <> []
  /\ (LookupEnv env "FULL_ACCESS_LOG_SUPPORTED_CONTENT_TYPES" = None ->
      FullAccessLogSupportedContentTypes cfg = defaultSupportedContentTypes)
  /\ (LookupEnv env "FULL_ACCESS_LOG_MAX_BODY_SIZE" = None ->
      FullAccessLogMaxBodySize cfg = 10240)
  /\ (forall s, LookupEnv env "FULL_ACCESS_LOG_MAX_BODY_SIZE" = Some s ->
      GoStrings.HasPrefix s "-" = false -> 0 <= FullAccessLogMaxBodySize cfg).
Proof.
  destruct (init_values env) as (_ & Htypes & Hmax & _).
  cbv zeta. rewrite Htypes, Hmax. split; [|split; [|split]].
  - destruct (LookupEnv env "FULL_ACCESS_LOG_SUPPORTED_CONTENT_TYPES");
      [apply Split_nonempty | discriminate].
  - now intros ->.
  - now intros ->.
  - intros s -> Hminus. now apply ParseInt_nonneg.
Qed.

(** ** The filter on concrete transactions *)

(** With the default content types image/png is not supported, and nothing
    is captured for it. *)
Lemma capture_ineligible_content_type_witness :
  isSupportedContentType enabledConfig "image/png" = false
  /\ (forall req : Request,
        getRequestBody (H := sampleCollaborators) enabledConfig req "image/png"
        = ("", req, []))
  /\ (forall w : ResponseWriterInterceptor,
        getResponseBody (H := sampleCollaborators) enabledConfig w "image/png" = "").
Proof.
  split; [reflexivity|].
  apply (capture_ineligible_content_type (H := sampleCollaborators)
           enabledConfig "image/png").
  right. reflexivity.
Defined.

(** With a maximum of four bytes a five-byte text body is replaced by the
    sentinel in both directions. *)
Lemma oversized_body_sentinel_witness :
  let cfg := setMaxBodySize enabledConfig 4 in
  getResponseBody (H := sampleCollaborators) cfg
    (mkInterceptor (mkHTTPResponseWriter ∅ [] None) (list_byte_of_string "hello"))
    "text/plain" = "data too large"
  /\ fst (fst (getRequestBody (H := sampleCollaborators) cfg
                 (sampleRequest "text/plain" (textBody "hello")) "text/plain"))
     = "data too large".
Proof.
  intros cfg.
  destruct (oversized_body_sentinel (H := sampleCollaborators) cfg "text/plain")
    as (Hresp & Hreq & _); [discriminate | reflexivity |].
  split.
  - apply Hresp. reflexivity.
  - apply Hreq; [reflexivity | discriminate].
Defined.

(** With the maximum set to -1 an empty body is longer than the maximum:
    [getResponseBody] returns the sentinel, but [getRequestBody] returns the
    empty string, so "longer than the maximum" alone does not give the
    sentinel on the request side. *)
Lemma oversized_empty_request_body :
  FullAccessLogMaxBodySize negativeMaxConfig = -1
  /\ getResponseBody (H := sampleCollaborators) negativeMaxConfig
       (mkInterceptor (mkHTTPResponseWriter ∅ [] None) []) "text/plain"
     = "data too large"
  /\ ~ ("text/plain" <> "" ->
        isSupportedContentType negativeMaxConfig "text/plain" = true ->
        len (fst (ioutil.ReadAll (Body (sampleRequest "text/plain" ioutil.EOF))))
          > FullAccessLogMaxBodySize negativeMaxConfig ->
        fst (fst (getRequestBody (H := sampleCollaborators) negativeMaxConfig
                    (sampleRequest "text/plain" ioutil.EOF) "text/plain"))
        = "data too large").
Proof.
  split; [reflexivity | split; [reflexivity|]].
  intros Hclaim.
  assert (Hcapture : fst (fst (getRequestBody (H := sampleCollaborators) negativeMaxConfig
                                 (sampleRequest "text/plain" ioutil.EOF) "text/plain"))
                     = "data too large")
    by (apply Hclaim; [discriminate | reflexivity | reflexivity]).
  vm_compute in Hcapture. discriminate.
Qed.

(** On a stream that breaks after three bytes the chain runs and the three
    bytes are forwarded. *)
Lemma read_failure_is_not_fatal_witness :
  let req := sampleRequest "text/plain" brokenBody in
  let out := AccessLog (H := sampleCollaborators) enabledConfig sampleLogging sampleClock req
               sampleResponse (sampleChain "text/plain" []) in
  snd (ioutil.ReadAll (Body req)) = Some "unexpected EOF"
  /\ (request_after out, response_after out)
     = sampleChain "text/plain" [] (forwarded out) (intercepted sampleResponse)
  /\ fst (ioutil.ReadAll (Body (forwarded out))) = list_byte_of_string "abc".
Proof.
  intros req out. split; [reflexivity|].
  destruct (read_failure_is_not_fatal (H := sampleCollaborators) enabledConfig
              sampleLogging sampleClock req sampleResponse (sampleChain "text/plain" [])
              "unexpected EOF" eq_refl) as (_ & Hchain & Hbytes).
  split; [exact Hchain | exact Hbytes].
Defined.

(** On the stream that breaks after three bytes the capture is these three
    bytes: a failed read does not always give the empty string. *)
Lemma read_failure_partial_capture :
  fst (fst (getRequestBody (H := sampleCollaborators) enabledConfig
              (sampleRequest "text/plain" brokenBody) "text/plain")) = "abc"
  /\ ~ (snd (ioutil.ReadAll (Body (sampleRequest "text/plain" brokenBody))) <> None ->
        fst (fst (getRequestBody (H := sampleCollaborators) enabledConfig
                    (sampleRequest "text/plain" brokenBody) "text/plain")) = "").
Proof.
  split; [reflexivity|].
  intros Hclaim.
  assert (Hcapture : fst (fst (getRequestBody (H := sampleCollaborators) enabledConfig
                                 (sampleRequest "text/plain" brokenBody) "text/plain")) = "")
    by (apply Hclaim; discriminate).
  vm_compute in Hcapture. discriminate.
Qed.

(** A request without attributes and without a token, in a process whose
    standard logger was raised to Warn before the filter first ran: the three
    identity fields of the record are empty and the access logger writes no
    line, where at level Info it writes one. *)
Lemma no_line_at_warn_level :
  let run lg :=
    AccessLog (H := sampleCollaborators) defaultConfig lg sampleClock
      (sampleRequest "text/plain" ioutil.EOF) sampleResponse
      (sampleChain "text/plain" []) in
  attributes (request_after (run warnLogging)) = ∅
  /\ iam_RetrieveJWTClaims (Collaborators := sampleCollaborators)
       (request_after (run warnLogging)) = None
  /\ rec_namespace (logged (run warnLogging)) = ""
  /\ rec_user_id (logged (run warnLogging)) = ""
  /\ rec_client_id (logged (run warnLogging)) = ""
  /\ emitted (run warnLogging) = []
  /\ ~ (exists line, In line (emitted (run warnLogging)))
  /\ length (emitted (run sampleLogging)) = 1%nat.
Proof.
  intros run. repeat split.
  intros (line & Hin). vm_compute in Hin. exact Hin.
Qed.

(** In a process started with an empty environment both body fields of a
    JSON transaction are "-". *)
Lemma capture_disabled_bodies_dash_witness :
  let out := AccessLog (H := sampleCollaborators) defaultConfig sampleLogging sampleClock
               (sampleRequest "application/json" (textBody "[1, 2, 3]"))
               sampleResponse
               (sampleChain "application/json" (list_byte_of_string "[4, 5]")) in
  FullAccessLogEnabled defaultConfig = false
  /\ rec_request_body (logged out) = "-"
  /\ rec_response_body (logged out) = "-".
Proof.
  intros out. split; [reflexivity|].
  destruct (capture_disabled_bodies_dash (H := sampleCollaborators) defaultConfig
              sampleLogging sampleClock (sampleRequest "application/json" (textBody "[1, 2, 3]"))
              sampleResponse
              (sampleChain "application/json" (list_byte_of_string "[4, 5]"))
              eq_refl) as (Hreq & Hresp & _).
  split; [exact Hreq | exact Hresp].
Defined.

(** A process started with the maximum body size set to -1 keeps -1: the
    maximum is not always at least 0. *)
Lemma init_negative_max_body_size :
  FullAccessLogMaxBodySize (fst (init {[ "FULL_ACCESS_LOG_MAX_BODY_SIZE" := "-1" ]})) = -1
  /\ ~ (0 <= FullAccessLogMaxBodySize
               (fst (init {[ "FULL_ACCESS_LOG_MAX_BODY_SIZE" := "-1" ]}))).
Proof.
  split; [reflexivity|]. vm_compute. intros Hle. now apply Hle.
Qed.

(** With every flag on, a text/plain transaction whose request and response
    bodies are the one byte "-" is logged with "-" in both body fields: a "-"
    does not always tell that a flag is off. *)
Lemma dash_body_with_capture_enabled :
  let out := AccessLog (H := sampleCollaborators) enabledConfig sampleLogging sampleClock
               (sampleRequest "text/plain" (textBody "-")) sampleResponse
               (sampleChain "text/plain" (list_byte_of_string "-")) in
  rec_request_body (logged out) = "-"
  /\ rec_response_body (logged out) = "-"
  /\ ~ (rec_request_body (logged out) = "-" ->
        FullAccessLogEnabled enabledConfig = false
        \/ FullAccessLogRequestBodyEnabled enabledConfig = false)
  /\ ~ (rec_response_body (logged out) = "-" ->
        FullAccessLogEnabled enabledConfig = false
        \/ FullAccessLogResponseBodyEnabled enabledConfig = false).
Proof.
  intros out. split; [reflexivity | split; [reflexivity|]].
  split; intros Hclaim; destruct (Hclaim eq_refl) as [Hoff|Hoff];
    vm_compute in Hoff; discriminate.
Qed.

(** ** Further properties of the capture functions *)

Lemma chars_append (a b : string) :
  list_ascii_of_string (a ++ b)
  = (list_ascii_of_string a ++ list_ascii_of_string b)%list.
Proof. induction a as [|c a IH]; simpl; [reflexivity | now rewrite IH]. Qed.

(** A byte that no test [Ascii.eqb] finds in a list is not in the list. *)
Lemma absent_by_test (c : ascii) (l : list ascii) :
  existsb (Ascii.eqb c) l = false -> ~ In c l.
Proof.
  induction l as [|x l IH]; simpl; [tauto|].
  intros Hex. apply orb_false_iff in Hex as [Hx Hl].
  intros [<-|Hin]; [now rewrite Ascii.eqb_refl in Hx | now apply IH].
Qed.

(** [ReplaceAll] leaves no occurrence of the replaced byte, unless the
    replacement brings it back. *)
Lemma ReplaceAll_absent (s : string) (old : ascii) (new : string) :
  ~ In old (list_ascii_of_string new) ->
  ~ In old (list_ascii_of_string (GoStrings.ReplaceAll s old new)).
Proof.
  intros Hnew. induction s as [|c s IH]; simpl; [tauto|].
  destruct (Ascii.eqb_spec c old) as [->|Hne].
  - rewrite chars_append, in_app_iff. tauto.
  - simpl. intros [Heq|Hin]; [now apply Hne | now apply IH].
Qed.

(** [ReplaceAll] brings in no byte that is neither in the string nor in the
    replacement. *)
Lemma ReplaceAll_other (s : string) (old : ascii) (new : string) (d : ascii) :
  ~ In d (list_ascii_of_string s) -> ~ In d (list_ascii_of_string new) ->
  ~ In d (list_ascii_of_string (GoStrings.ReplaceAll s old new)).
Proof.
  intros Hs Hnew. induction s as [|c s IH]; simpl; [tauto|].
  simpl in Hs. destruct (Ascii.eqb c old).
  - rewrite chars_append, in_app_iff. tauto.
  - simpl. tauto.
Qed.

(** [ReplaceAll] keeps a string that does not hold the byte. *)
Lemma ReplaceAll_id (s : string) (old : ascii) (new : string) :
  ~ In old (list_ascii_of_string s) -> GoStrings.ReplaceAll s old new = s.
Proof.
  induction s as [|c s IH]; simpl; [reflexivity|].
  intros Hs. destruct (Ascii.eqb_spec c old) as [->|Hne]; [tauto|].
  rewrite IH; tauto.
Qed.

Lemma escapeNewlines_no_line_break (b : list Byte.byte) :
  ~ In LF (list_ascii_of_string (escapeNewlines b))
  /\ ~ In CR (list_ascii_of_string (escapeNewlines b)).
Proof.
  unfold escapeNewlines. split.
  - apply ReplaceAll_other.
    + apply ReplaceAll_absent. now apply absent_by_test.
    + now apply absent_by_test.
  - apply ReplaceAll_absent. now apply absent_by_test.
Qed.

Lemma chars_of_bytes (b : list Byte.byte) :
  list_ascii_of_string (string_of_list_byte b) = map ascii_of_byte b.
Proof. unfold string_of_list_byte. apply list_ascii_of_string_of_list_ascii. Qed.

Lemma length_of_bytes (b : list Byte.byte) :
  String.length (string_of_list_byte b) = length b.
Proof.
  unfold string_of_list_byte.
  induction b as [|x b IH]; simpl; [reflexivity | now rewrite IH].
Qed.

(** A byte is in the body exactly when its character is in the text. *)
Lemma byte_in_text (x : Byte.byte) (b : list Byte.byte) :
  In (ascii_of_byte x) (list_ascii_of_string (string_of_list_byte b)) <-> In x b.
Proof.
  rewrite chars_of_bytes, in_map_iff. split.
  - intros (y & Hy & Hin).
    apply (f_equal byte_of_ascii) in Hy. rewrite !byte_of_ascii_of_byte in Hy.
    now subst y.
  - intros Hin. now exists x.
Qed.

(** Escaping at most doubles the length. *)
Lemma escapeNewlines_length (b : list Byte.byte) :
  (String.length (escapeNewlines b) <= 2 * length b)%nat.
Proof.
  unfold escapeNewlines. rewrite <- (length_of_bytes b).
  induction (string_of_list_byte b) as [|c s IH]; simpl; [lia|].
  destruct (Ascii.eqb_spec c LF) as [->|Hlf]; simpl.
  - lia.
  - destruct (Ascii.eqb c CR); simpl; lia.
Qed.

Lemma escapeNewlines_verbatim (b : list Byte.byte) :
  ~ In Byte.x0a b -> ~ In Byte.x0d b -> escapeNewlines b = string_of_list_byte b.
Proof.
  intros Hlf Hcr. unfold escapeNewlines.
  rewrite (ReplaceAll_id _ LF) by (intros Hin; now apply (byte_in_text Byte.x0a) in Hin).
  apply ReplaceAll_id. intros Hin. now apply (byte_in_text Byte.x0d) in Hin.
Qed.

Section CaptureText.
Context `{Collaborators}.

(** The text [getResponseBody] returns, case by case. *)
Lemma getResponseBody_cases (cfg : Config) (w : ResponseWriterInterceptor)
    (contentType : string) :
  GoStrings.Contains contentType "application/json" = false ->
  getResponseBody cfg w contentType = ""
  \/ getResponseBody cfg w contentType = "data too large"
  \/ (len (data w) <= FullAccessLogMaxBodySize cfg
      /\ getResponseBody cfg w contentType = escapeNewlines (data w)).
Proof.
  intros Hjson. unfold getResponseBody. rewrite Hjson.
  destruct (_ || _); [now left|].
  destruct (len (data w) >? FullAccessLogMaxBodySize cfg) eqn:Hgt; [right; now left|].
  right. right. split; [|reflexivity].
  destruct (Z.gtb_spec (len (data w)) (FullAccessLogMaxBodySize cfg)); [discriminate | lia].
Qed.

(** The text [getRequestBody] returns, case by case. *)
Lemma getRequestBody_cases (cfg : Config) (req : Request) (contentType : string) :
  GoStrings.Contains contentType "application/json" = false ->
  let bodyBytes := fst (ioutil.ReadAll (Body req)) in
  fst (fst (getRequestBody cfg req contentType)) = ""
  \/ fst (fst (getRequestBody cfg req contentType)) = "data too large"
  \/ (len bodyBytes <= FullAccessLogMaxBodySize cfg
      /\ fst (fst (getRequestBody cfg req contentType)) = escapeNewlines bodyBytes).
Proof.
  intros Hjson bodyBytes. unfold getRequestBody. rewrite Hjson.
  destruct (_ || _); [now left|].
  subst bodyBytes. destruct (ioutil.ReadAll (Body req)) as [bodyBytes err]. cbn [fst].
  destruct (negb (len bodyBytes =? 0)); [|now left].
  destruct (len bodyBytes >? FullAccessLogMaxBodySize cfg) eqn:Hgt; [right; now left|].
  right. right. split; [|reflexivity].
  destruct (Z.gtb_spec (len bodyBytes) (FullAccessLogMaxBodySize cfg)); [discriminate | lia].
Qed.

(** X1. For a content type that is not JSON, the text either capture
    function returns holds no line feed and no carriage return, whatever the
    body: the captured body cannot break the one-line record. *)
Theorem capture_has_no_line_break (cfg : Config) (contentType : string)
    (Hjson : GoStrings.Contains contentType "application/json" = false) :
  (forall w : ResponseWriterInterceptor,
     ~ In LF (list_ascii_of_string (getResponseBody cfg w contentType))
     /\ ~ In CR (list_ascii_of_string (getResponseBody cfg w contentType)))
  /\ (forall req : Request,
        ~ In LF (list_ascii_of_string (fst (fst (getRequestBody cfg req contentType))))
        /\ ~ In CR (list_ascii_of_string (fst (fst (getRequestBody cfg req contentType))))).
Proof.
  split.
  - intros w.
    destruct (getResponseBody_cases cfg w contentType Hjson) as [-> | [-> | [_ ->]]].
    + split; now apply absent_by_test.
    + split; now apply absent_by_test.
    + apply escapeNewlines_no_line_break.
  - intros req.
    destruct (getRequestBody_cases cfg req contentType Hjson) as [-> | [-> | [_ ->]]].
    + split; now apply absent_by_test.
    + split; now apply absent_by_test.
    + apply escapeNewlines_no_line_break.
Qed.

(** X2. A body of an eligible content type other than JSON that fits the
    maximum and holds no line feed and no carriage return byte is captured
    verbatim, in both directions. *)
Theorem newline_free_body_verbatim (cfg : Config) (contentType : string)
    (b : list Byte.byte)
    (Hne : contentType <> "") (Hs : isSupportedContentType cfg contentType = true)
    (Hjson : GoStrings.Contains contentType "application/json" = false)
    (Hfit : len b <= FullAccessLogMaxBodySize cfg)
    (Hlf : ~ In Byte.x0a b) (Hcr : ~ In Byte.x0d b) :
  (forall w : ResponseWriterInterceptor,
     data w = b -> getResponseBody cfg w contentType = string_of_list_byte b)
  /\ (forall req : Request,
        fst (ioutil.ReadAll (Body req)) = b ->
        fst (fst (getRequestBody cfg req contentType)) = string_of_list_byte b).
Proof.
  assert (Hle : (len b >? FullAccessLogMaxBodySize cfg) = false).
  { destruct (Z.gtb_spec (len b) (FullAccessLogMaxBodySize cfg)); [lia | reflexivity]. }
  split.
  - intros w Hw. unfold getResponseBody.
    rewrite (eligible_guard _ _ Hne Hs), Hw, Hle, Hjson.
    now apply escapeNewlines_verbatim.
  - intros req Hread. rewrite getRequestBody_eligible by assumption.
    rewrite Hread, Hle, Hjson.
    destruct (len b =? 0) eqn:Hz; cbn [negb fst].
    + apply len_zero in Hz. rewrite Hz. reflexivity.
    + now apply escapeNewlines_verbatim.
Qed.

(** X3. For a content type that is not JSON, the captured text is never
    longer than twice the maximum body size, or than the 14 bytes of the
    sentinel: the size limit bounds what a body adds to the log. *)
Theorem capture_length_bounded (cfg : Config) (contentType : string)
    (Hjson : GoStrings.Contains contentType "application/json" = false) :
  (forall w : ResponseWriterInterceptor,
     Z.of_nat (String.length (getResponseBody cfg w contentType))
     <= Z.max 14 (2 * FullAccessLogMaxBodySize cfg))
  /\ (forall req : Request,
        Z.of_nat (String.length (fst (fst (getRequestBody cfg req contentType))))
        <= Z.max 14 (2 * FullAccessLogMaxBodySize cfg)).
Proof.
  split.
  - intros w.
    destruct (getResponseBody_cases cfg w contentType Hjson) as [-> | [-> | [Hfit ->]]].
    + simpl. lia.
    + simpl. lia.
    + pose proof (escapeNewlines_length (data w)). unfold len in Hfit. lia.
  - intros req.
    destruct (getRequestBody_cases cfg req contentType Hjson) as [-> | [-> | [Hfit ->]]].
    + simpl. lia.
    + simpl. lia.
    + pose proof (escapeNewlines_length (fst (ioutil.ReadAll (Body req)))).
      unfold len in Hfit. lia.
Qed.

(** X4. Both directions apply the same rules: for a request whose stream
    gave at least one byte, [getRequestBody] returns what [getResponseBody]
    returns for an interceptor holding the same bytes, for every content
    type; for an empty body the two agree when the maximum is not negative
    and the content type is not JSON. *)
Theorem request_and_response_capture_agree (cfg : Config) (req : Request)
    (w : ResponseWriterInterceptor) (contentType : string)
    (Hsame : data w = fst (ioutil.ReadAll (Body req))) :
  (data w <> [] ->
   fst (fst (getRequestBody cfg req contentType)) = getResponseBody cfg w contentType)
  /\ (0 <= FullAccessLogMaxBodySize cfg ->
      GoStrings.Contains contentType "application/json" = false ->
      fst (fst (getRequestBody cfg req contentType)) = getResponseBody cfg w contentType).
Proof.
  destruct (String.eqb_spec contentType "") as [->|Hne];
    [|destruct (isSupportedContentType cfg contentType) eqn:Hs].
  - split; reflexivity.
  - rewrite getRequestBody_eligible by assumption.
    unfold getResponseBody. rewrite (eligible_guard _ _ Hne Hs), Hsame.
    destruct (len (fst (ioutil.ReadAll (Body req))) =? 0) eqn:Hz; cbn [negb fst].
    + (* no byte: the request side returns the empty string at once *)
      apply len_zero in Hz. rewrite Hz in *. split; [congruence|].
      intros Hmax ->.
      destruct (Z.gtb_spec (len []) (FullAccessLogMaxBodySize cfg)) as [Hgt|_];
        [unfold len in Hgt; simpl in Hgt; lia | reflexivity].
    + split; intros; reflexivity.
  - rewrite getRequestBody_ineligible, getResponseBody_ineligible by now right.
    split; reflexivity.
Qed.

(** X5. Capturing twice is harmless: a second [getRequestBody] on the
    request the first one leaves returns the same text and leaves the same
    request. *)
Theorem getRequestBody_twice (cfg : Config) (req : Request) (contentType : string) :
  let first := getRequestBody cfg req contentType in
  fst (getRequestBody cfg (snd (fst first)) contentType) = fst first.
Proof.
  cbv zeta. unfold getRequestBody.
  destruct (_ || _); [reflexivity|].
  destruct req as [m u h b a r]. cbn [Body].
  destruct (ioutil.ReadAll b) as [bodyBytes err] eqn:Hread.
  destruct (len bodyBytes =? 0) eqn:Hz; cbn [negb].
  - apply len_zero in Hz. subst bodyBytes. cbn [fst snd setBody Body].
    rewrite ReadAll_drained, Hread. cbn [snd len length Z.of_nat Z.eqb negb].
    unfold setBody. cbn.
    assert (Hdd : ioutil.drained (ioutil.drained b) = ioutil.drained b).
    { clear. induction b; simpl; auto. }
    now rewrite Hdd.
  - destruct (len bodyBytes >? FullAccessLogMaxBodySize cfg) eqn:Hgt;
      [|destruct (GoStrings.Contains contentType "application/json") eqn:Hjson];
      cbn [fst snd setBody Body]; rewrite ReadAll_NewBuffer, Hz; cbn [negb];
      rewrite Hgt, ?Hjson; reflexivity.
Qed.

(** X6. Once [getRequestBody] has read at least one byte, the body it leaves
    ends cleanly: a read error of the original stream is not passed on to
    the rest of the chain, which reads the bytes received before the failure
    as a complete body. *)
Theorem restored_body_hides_read_error (cfg : Config) (req : Request)
    (contentType : string)
    (Hne : contentType <> "") (Hs : isSupportedContentType cfg contentType = true)
    (Hbytes : fst (ioutil.ReadAll (Body req)) <> []) :
  ioutil.ReadAll (Body (snd (fst (getRequestBody cfg req contentType))))
  = (fst (ioutil.ReadAll (Body req)), None).
Proof.
  rewrite getRequestBody_request, (eligible_guard _ _ Hne Hs).
  destruct (len (fst (ioutil.ReadAll (Body req))) =? 0) eqn:Hz.
  - apply len_zero in Hz. contradiction.
  - cbn [setBody Body]. apply ReadAll_NewBuffer.
Qed.

End CaptureText.

(** ** Further properties of the start-up configuration *)

(** [ParseBool] answers [true] on exactly six spellings. *)
Lemma ParseBool_true (s : string) :
  fst (strconv.ParseBool s) = true <-> In s ["1"; "t"; "T"; "true"; "TRUE"; "True"].
Proof.
  unfold strconv.ParseBool. split.
  - destruct (_ || _) eqn:Hon.
    + intros _. rewrite !orb_true_iff, !String.eqb_eq in Hon.
      destruct Hon as [[[[[-> | ->] | ->] | ->] | ->] | ->]; simpl; tauto.
    + match goal with |- context [if ?c then _ else _] => destruct c end;
        simpl; discriminate.
  - simpl. intros [<-|[<-|[<-|[<-|[<-|[<-|[]]]]]]]; reflexivity.
Qed.

(** Joining the fields [Split] returns gives back the string. *)
Lemma Split_concat (s : string) (sep : ascii) :
  String.concat (String sep "") (GoStrings.Split s sep) = s.
Proof.
  induction s as [|c s IH]; [reflexivity|]. simpl.
  pose proof (Split_nonempty s sep) as Hne.
  destruct (Ascii.eqb_spec c sep) as [->|Hc].
  - destruct (GoStrings.Split s sep) as [|field fields]; [contradiction|].
    simpl in *. now rewrite IH.
  - destruct (GoStrings.Split s sep) as [|field fields]; [contradiction|].
    destruct fields as [|field' fields]; simpl in *; now rewrite <- IH.
Qed.

(** No field holds the separator. *)
Lemma Split_no_separator (s : string) (sep : ascii) (v : string) :
  In v (GoStrings.Split s sep) -> ~ In sep (list_ascii_of_string v).
Proof.
  revert v. induction s as [|c s IH]; simpl.
  - intros v [<-|[]]. simpl. tauto.
  - intros v. destruct (Ascii.eqb_spec c sep) as [->|Hc].
    + intros [<-|Hin]; [simpl; tauto | now apply IH].
    + pose proof (Split_nonempty s sep) as Hne.
      destruct (GoStrings.Split s sep) as [|field fields]; [contradiction|].
      intros [<-|Hin].
      * simpl. intros [Heq|Hin]; [congruence|]. apply (IH field); simpl; auto.
      * apply IH. simpl. auto.
Qed.

(** There is one field more than there are separators. *)
Lemma Split_length (s : string) (sep : ascii) :
  length (GoStrings.Split s sep)
  = S (count_occ Ascii.ascii_dec (list_ascii_of_string s) sep).
Proof.
  induction s as [|c s IH]; [reflexivity|]. simpl.
  pose proof (Split_nonempty s sep) as Hne.
  destruct (Ascii.eqb_spec c sep) as [->|Hc].
  - destruct (Ascii.ascii_dec sep sep); [|contradiction]. simpl. now rewrite IH.
  - destruct (Ascii.ascii_dec c sep); [contradiction|].
    destruct (GoStrings.Split s sep) as [|field fields]; [contradiction|].
    simpl in *. exact IH.
Qed.

(** A separator splits the fields before it from the fields after it. *)
Lemma Split_app (l r : string) (sep : ascii) :
  GoStrings.Split (l ++ String sep r) sep
  = (GoStrings.Split l sep ++ GoStrings.Split r sep)%list.
Proof.
  induction l as [|c l IH]; simpl.
  - now rewrite Ascii.eqb_refl.
  - rewrite IH. destruct (Ascii.eqb c sep); [reflexivity|].
    pose proof (Split_nonempty l sep) as Hne.
    destruct (GoStrings.Split l sep) as [|field fields]; [contradiction | reflexivity].
Qed.

(** X7. [init] reads five environment variables and nothing else: setting
    or removing any other variable changes neither the configuration nor the
    errors logged. *)
Theorem init_ignores_other_variables (env : gmap string string) (key value : string)
    (Hother : ~ In key ["FULL_ACCESS_LOG_ENABLED";
                        "FULL_ACCESS_LOG_SUPPORTED_CONTENT_TYPES";
                        "FULL_ACCESS_LOG_MAX_BODY_SIZE";
                        "FULL_ACCESS_LOG_REQUEST_BODY_ENABLED";
                        "FULL_ACCESS_LOG_RESPONSE_BODY_ENABLED"]) :
  init (<[key := value]> env) = init env
  /\ init (delete key env) = init env.
Proof.
  assert (Hins : forall k, In k ["FULL_ACCESS_LOG_ENABLED";
                                 "FULL_ACCESS_LOG_SUPPORTED_CONTENT_TYPES";
                                 "FULL_ACCESS_LOG_MAX_BODY_SIZE";
                                 "FULL_ACCESS_LOG_REQUEST_BODY_ENABLED";
                                 "FULL_ACCESS_LOG_RESPONSE_BODY_ENABLED"] ->
                      LookupEnv (<[key := value]> env) k = LookupEnv env k
                      /\ LookupEnv (delete key env) k = LookupEnv env k).
  { intros k Hk. unfold LookupEnv.
    assert (key <> k) by (intros ->; contradiction).
    now rewrite lookup_insert_ne, lookup_delete_ne. }
  unfold init, initBool.
  split.
  - rewrite !(fun k Hk => proj1 (Hins k Hk)) by (simpl; tauto). reflexivity.
  - rewrite !(fun k Hk => proj2 (Hins k Hk)) by (simpl; tauto). reflexivity.
Qed.

(** X8. After [init] the master flag is on exactly when its variable holds
    one of the six spellings of true; the request-body and response-body
    switches are on exactly when their variable is unset or holds one of
    these spellings, so every other value, well-formed or not, switches
    them off. *)
Theorem init_switches (env : gmap string string) :
  let cfg := fst (init env) in
  let on s := In s ["1"; "t"; "T"; "true"; "TRUE"; "True"] in
  (FullAccessLogEnabled cfg = true <->
   exists s, LookupEnv env "FULL_ACCESS_LOG_ENABLED" = Some s /\ on s)
  /\ (FullAccessLogRequestBodyEnabled cfg = true <->
      LookupEnv env "FULL_ACCESS_LOG_REQUEST_BODY_ENABLED" = None
      \/ exists s, LookupEnv env "FULL_ACCESS_LOG_REQUEST_BODY_ENABLED" = Some s /\ on s)
  /\ (FullAccessLogResponseBodyEnabled cfg = true <->
      LookupEnv env "FULL_ACCESS_LOG_RESPONSE_BODY_ENABLED" = None
      \/ exists s, LookupEnv env "FULL_ACCESS_LOG_RESPONSE_BODY_ENABLED" = Some s /\ on s).
Proof.
  destruct (init_values env) as (Hen & _ & _ & Hreq & Hresp). cbv zeta.
  rewrite Hen, Hreq, Hresp. split; [|split].
  - destruct (LookupEnv env "FULL_ACCESS_LOG_ENABLED") as [s|].
    + rewrite ParseBool_true. split.
      * intros Hs. now exists s.
      * now intros (s' & [= <-] & Hs).
    + split; [discriminate | now intros (s & Hs & _)].
  - destruct (LookupEnv env "FULL_ACCESS_LOG_REQUEST_BODY_ENABLED") as [s|].
    + rewrite ParseBool_true. split.
      * intros Hs. right. now exists s.
      * now intros [Hn | (s' & [= <-] & Hs)].
    + split; [now left | reflexivity].
  - destruct (LookupEnv env "FULL_ACCESS_LOG_RESPONSE_BODY_ENABLED") as [s|].
    + rewrite ParseBool_true. split.
      * intros Hs. right. now exists s.
      * now intros [Hn | (s' & [= <-] & Hs)].
    + split; [now left | reflexivity].
Qed.

(** X9. When the content-types variable is set, the supported set is its
    value cut at the commas and nothing more: joining the entries with
    commas gives back the value (no entry is trimmed or dropped), no entry
    holds a comma, and there is one entry more than there are commas. *)
Theorem init_content_types_from_environment (env : gmap string string) (s : string)
    (Hset : LookupEnv env "FULL_ACCESS_LOG_SUPPORTED_CONTENT_TYPES" = Some s) :
  let types := FullAccessLogSupportedContentTypes (fst (init env)) in
  String.concat "," types = s
  /\ (forall v, In v types -> ~ In ","%char (list_ascii_of_string v))
  /\ length types = S (count_occ Ascii.ascii_dec (list_ascii_of_string s) ","%char).
Proof.
  destruct (init_values env) as (_ & Htypes & _). cbv zeta.
  rewrite Htypes, Hset. split; [|split].
  - apply Split_concat.
  - intros v. apply Split_no_separator.
  - apply Split_length.
Qed.

(** X10. When the value of the content-types variable is empty, begins or
    ends with a comma, or has two commas in a row, the set holds the empty
    entry, which occurs in every string: after [init] every content type is
    supported. *)
Theorem init_empty_entry_supports_all (env : gmap string string) (s : string)
    (Hset : LookupEnv env "FULL_ACCESS_LOG_SUPPORTED_CONTENT_TYPES" = Some s)
    (Hempty : s = ""
              \/ (exists r, s = "," ++ r)
              \/ (exists l, s = l ++ ",")
              \/ (exists l r, s = l ++ ",," ++ r)) :
  forall contentType : string,
    isSupportedContentType (fst (init env)) contentType = true.
Proof.
  intros contentType. apply empty_entry_supports_everything.
  destruct (init_values env) as (_ & Htypes & _). rewrite Htypes, Hset.
  destruct Hempty as [-> | [(r & ->) | [(l & ->) | (l & r & ->)]]].
  - simpl. auto.
  - simpl. auto.
  - rewrite (Split_app l "" ","%char). apply in_or_app. right. simpl. auto.
  - change (l ++ ",," ++ r) with (l ++ String ","%char ("," ++ r)).
    rewrite Split_app. apply in_or_app. right. simpl. auto.
Qed.

(** ** Further properties of the filter *)

Lemma absent_append (c : ascii) (a b : string) :
  ~ In c (list_ascii_of_string a) -> ~ In c (list_ascii_of_string b) ->
  ~ In c (list_ascii_of_string (a ++ b)).
Proof. intros Ha Hb. rewrite chars_append, in_app_iff. tauto. Qed.

(** [%d] prints digits and a sign, no line feed. *)
Lemma fmt_d_no_line_feed (z : Z) : ~ In LF (list_ascii_of_string (fmt_d z)).
Proof.
  assert (Hu : forall d, ~ In LF (list_ascii_of_string (NilEmpty.string_of_uint d))).
  { induction d; simpl; try tauto;
      (intros [Hc|Hin]; [discriminate Hc | now apply IHd]). }
  assert (Hz : forall d, ~ In LF (list_ascii_of_string (NilZero.string_of_uint d))).
  { intros d. destruct d; try apply Hu. now apply absent_by_test. }
  unfold fmt_d. destruct (Z.to_int z) as [d|d]; simpl.
  - apply Hz.
  - intros [Hc|Hin]; [discriminate Hc | now apply (Hz d)].
Qed.

(** X11. One record gives one line: when no string argument of the record
    holds a line feed, the line handed to the logger holds exactly one line
    feed, its last byte. *)
Theorem record_is_one_line (r : AccessRecord)
    (Hfields : forall f, In f (stringFields r) -> ~ In LF (list_ascii_of_string f)) :
  Format (fullAccessLogFormat r) = fullAccessLogFormat r ++ String LF ""
  /\ ~ In LF (list_ascii_of_string (fullAccessLogFormat r)).
Proof.
  split; [reflexivity|].
  unfold fullAccessLogFormat.
  repeat (apply absent_append;
          [first [ now apply absent_by_test
                 | apply fmt_d_no_line_feed
                 | apply Hfields; simpl; tauto ] |]).
  now apply absent_by_test.
Qed.

(** X12. The supported set only grows eligibility: a content type supported
    under one set is supported under every set that holds the same entries
    or more, so neither the order of the entries nor a repeated entry
    matters. *)
Theorem eligibility_grows_with_the_set (cfg cfg' : Config) (contentType : string)
    (Hsub : forall v, In v (FullAccessLogSupportedContentTypes cfg) ->
                      In v (FullAccessLogSupportedContentTypes cfg')) :
  isSupportedContentType cfg contentType = true ->
  isSupportedContentType cfg' contentType = true.
Proof.
  unfold isSupportedContentType. rewrite !isSupportedIn_spec.
  intros (v & Hin & Hc). exists v. auto.
Qed.

Section FilterProperties.
Context `{Collaborators}.

(** The request [getRequestBody] leaves behind differs from the original in
    its body stream at most, and that stream reads the same bytes. *)
Lemma getRequestBody_frame (cfg : Config) (req : Request) (contentType : string) :
  let req' := snd (fst (getRequestBody cfg req contentType)) in
  setBody req' (Body req) = req
  /\ fst (ioutil.ReadAll (Body req')) = fst (ioutil.ReadAll (Body req)).
Proof.
  cbv zeta. rewrite getRequestBody_request.
  destruct req as [m u h b a r]. cbn [Body].
  destruct (_ || _); [auto|].
  destruct (len (fst (ioutil.ReadAll b)) =? 0) eqn:Hz; cbn [setBody Body].
  - apply len_zero in Hz. rewrite ReadAll_drained, Hz. auto.
  - rewrite ReadAll_NewBuffer. auto.
Qed.

(** The record, argument by argument, in terms of the incoming request and
    of what the rest of the chain leaves. *)
Lemma AccessLog_record (cfg : Config) (lg : Logging) (clock : Clock) (req : Request)
    (resp : Response HTTPResponseWriter) (chain : FilterChain) :
  let out := AccessLog cfg lg clock req resp chain in
  let req' := request_after out in
  let r := logged out in
  rec_time r = stamp clock
  /\ rec_method r = Method req'
  /\ rec_path r = match Attribute req' MaskedQueryParamsAttribute with
                  | Some masked => MaskQueryParams (RequestURI req') masked
                  | None => RequestURI req'
                  end
  /\ rec_status r = StatusCode (response_after out)
  /\ rec_duration r = elapsedMs clock
  /\ rec_length r = ContentLength (response_after out)
  /\ rec_source_ip r = publicsourceip_PublicIP (Header req)
  /\ rec_user_agent r = HeaderParameter req constant_UserAgent
  /\ rec_referer r = HeaderParameter req constant_Referer
  /\ rec_trace_id r = attributeOrEmpty req' trace_TraceIDKey
  /\ rec_operation r = match SelectedRoute req' with Some op => op | None => "" end.
Proof.
  unfold AccessLog.
  destruct (if FullAccessLogEnabled cfg then _ else _) as [[requestBody req1] errs].
  destruct (chain req1 _) as [req2 resp2]. cbn zeta.
  destruct (iam_RetrieveJWTClaims req2); cbn; repeat split.
Qed.

(** X13. The filter hands the request on as it came, but for the body
    stream: the forwarded request differs from the incoming one in its body
    at most, that body reads the same bytes, and with the master flag or the
    request-body flag off the forwarded request is the incoming one. *)
Theorem AccessLog_forwards_request (cfg : Config) (lg : Logging) (clock : Clock) (req : Request)
    (resp : Response HTTPResponseWriter) (chain : FilterChain) :
  let out := AccessLog cfg lg clock req resp chain in
  setBody (forwarded out) (Body req) = req
  /\ fst (ioutil.ReadAll (Body (forwarded out))) = fst (ioutil.ReadAll (Body req))
  /\ (FullAccessLogEnabled cfg = false \/ FullAccessLogRequestBodyEnabled cfg = false ->
      forwarded out = req)
  /\ (request_after out, response_after out) = chain (forwarded out) (intercepted resp).
Proof.
  intros out.
  destruct (AccessLog_forwards cfg lg clock req resp chain) as (Hfw & _ & Hchain & _).
  fold out in Hfw, Hchain.
  split; [|split; [|split]]; [| | | exact Hchain]; rewrite Hfw; unfold captureStep.
  - destruct (_ && _); [apply getRequestBody_frame | now destruct req].
  - destruct (_ && _); [apply getRequestBody_frame | reflexivity].
  - intros [-> | ->]; [reflexivity | now rewrite andb_false_r].
Qed.

(** X14. The source IP, the user agent, the referer and the request content
    type of the record are read from the incoming request before the rest of
    the chain runs: two chains, whatever they do to the request, give the
    same four values; the method and the path are those of the request as
    the chain leaves it. *)
Theorem record_reads_headers_before_chain (cfg : Config) (lg : Logging) (clock : Clock) (req : Request)
    (resp : Response HTTPResponseWriter) (chain chain' : FilterChain) :
  let out := AccessLog cfg lg clock req resp chain in
  let out' := AccessLog cfg lg clock req resp chain' in
  rec_source_ip (logged out) = rec_source_ip (logged out')
  /\ rec_user_agent (logged out) = rec_user_agent (logged out')
  /\ rec_referer (logged out) = rec_referer (logged out')
  /\ rec_request_content_type (logged out) = rec_request_content_type (logged out')
  /\ rec_request_content_type (logged out) = HeaderGet (Header req) constant_ContentType
  /\ rec_method (logged out) = Method (request_after out)
  /\ (Attribute (request_after out) MaskedQueryParamsAttribute = None ->
      rec_path (logged out) = RequestURI (request_after out)).
Proof.
  intros out out'.
  destruct (AccessLog_record cfg lg clock req resp chain)
    as (_ & Hm & Hp & _ & _ & _ & Hip & Hua & Href & _).
  destruct (AccessLog_record cfg lg clock req resp chain')
    as (_ & _ & _ & _ & _ & _ & Hip' & Hua' & Href' & _).
  destruct (AccessLog_content_types cfg lg clock req resp chain) as (Hct & _).
  destruct (AccessLog_content_types cfg lg clock req resp chain') as (Hct' & _).
  fold out in Hm, Hp, Hip, Hua, Href, Hct. fold out' in Hip', Hua', Href', Hct'.
  repeat split; try congruence.
  - exact Hct.
  - intros Hnone. rewrite Hp, Hnone. reflexivity.
Qed.

(** X15. With capture on, a request whose stream gives no byte is logged
    with an empty request body, whatever its content type, the maximum body
    size and the masking directive: [MaskFields] is not called on an empty
    capture. *)
Theorem empty_request_body_logged_empty (cfg : Config) (lg : Logging) (clock : Clock) (req : Request)
    (resp : Response HTTPResponseWriter) (chain : FilterChain)
    (Hon : FullAccessLogEnabled cfg = true)
    (Hreq : FullAccessLogRequestBodyEnabled cfg = true)
    (Hempty : fst (ioutil.ReadAll (Body req)) = []) :
  rec_request_body (logged (AccessLog cfg lg clock req resp chain)) = "".
Proof.
  rewrite AccessLog_request_body, Hon, Hreq. cbn [andb].
  assert (Htext : fst (fst (getRequestBody cfg req (HeaderParameter req constant_ContentType)))
                  = "").
  { unfold getRequestBody. destruct (_ || _); [reflexivity|].
    destruct (ioutil.ReadAll (Body req)) as [bodyBytes err]. cbn [fst] in Hempty.
    subst bodyBytes. reflexivity. }
  rewrite Htext. apply maskBody_empty.
Qed.

(** X16. The filter logs an error exactly when capture is on for requests,
    the request content type is eligible and reading the body fails; it
    never logs more than one. *)
Theorem AccessLog_logs_read_errors_only (cfg : Config) (lg : Logging) (clock : Clock) (req : Request)
    (resp : Response HTTPResponseWriter) (chain : FilterChain) :
  let out := AccessLog cfg lg clock req resp chain in
  let contentType := HeaderParameter req constant_ContentType in
  (errors out <> [] <->
   FullAccessLogEnabled cfg = true /\ FullAccessLogRequestBodyEnabled cfg = true
   /\ contentType <> "" /\ isSupportedContentType cfg contentType = true
   /\ snd (ioutil.ReadAll (Body req)) <> None)
  /\ (forall e, snd (ioutil.ReadAll (Body req)) = Some e -> errors out <> [] ->
      errors out = [logrus.Errorf "failed to read request body: %v" (logrus.ArgString e)]).
Proof.
  intros out contentType.
  destruct (AccessLog_forwards cfg lg clock req resp chain) as (_ & Herr & _).
  fold out in Herr. rewrite Herr. unfold captureStep. fold contentType.
  destruct (FullAccessLogEnabled cfg); cbn [andb];
    [destruct (FullAccessLogRequestBodyEnabled cfg)|]; cbn [snd].
  - destruct (String.eqb_spec contentType "") as [Hct|Hne];
      [|destruct (isSupportedContentType cfg contentType) eqn:Hs].
    + rewrite getRequestBody_ineligible by now left. cbn [snd].
      split; [split; [congruence | tauto] | congruence].
    + assert (Hlogs : snd (getRequestBody cfg req contentType)
                      = match snd (ioutil.ReadAll (Body req)) with
                        | Some e => [logrus.Errorf "failed to read request body: %v"
                                       (logrus.ArgString e)]
                        | None => []
                        end)
        by (rewrite getRequestBody_eligible by assumption; now destruct (negb _)).
      rewrite Hlogs. destruct (snd (ioutil.ReadAll (Body req))) as [e|].
      * split; [split; [intros _; repeat split; congruence | intros _; discriminate]
               | intros e' [= <-] _; reflexivity].
      * split; [split; [congruence | intros (_ & _ & _ & _ & Hn); congruence]
               | intros e' [=]].
    + rewrite getRequestBody_ineligible by now right. cbn [snd].
      split; [split; [congruence | intros (_ & _ & _ & Hf & _); congruence] | congruence].
  - split; [split; [congruence | intros (_ & Hf & _); congruence] | congruence].
  - split; [split; [congruence | intros (Hf & _); congruence] | congruence].
Qed.

(** X17. The masking directive is read from the request as the rest of the
    chain leaves it: a directive attached by an inner filter is applied to a
    non-empty captured request body, with the request content type, even
    though the body was captured before the chain ran; without a directive
    the capture is logged as it is. *)
Theorem request_body_masked_after_chain (cfg : Config) (lg : Logging) (clock : Clock) (req : Request)
    (resp : Response HTTPResponseWriter) (chain : FilterChain)
    (Hon : FullAccessLogEnabled cfg = true)
    (Hreq : FullAccessLogRequestBodyEnabled cfg = true) :
  let out := AccessLog cfg lg clock req resp chain in
  let contentType := HeaderParameter req constant_ContentType in
  let captured := fst (fst (getRequestBody cfg req contentType)) in
  (forall directive,
     Attribute (request_after out) MaskedRequestFieldsAttribute = Some directive ->
     captured <> "" ->
     rec_request_body (logged out) = MaskFields contentType captured directive)
  /\ (Attribute (request_after out) MaskedRequestFieldsAttribute = None ->
      rec_request_body (logged out) = captured).
Proof.
  intros out contentType captured.
  pose proof (AccessLog_request_body cfg lg clock req resp chain) as Hbody.
  cbv zeta in Hbody. fold out contentType captured in Hbody.
  rewrite Hon, Hreq in Hbody. cbn [andb] in Hbody. rewrite Hbody. unfold maskBody.
  split.
  - intros directive -> Hne. apply String.eqb_neq in Hne. now rewrite Hne.
  - now intros ->.
Qed.

End FilterProperties.

(** ** Decimal values of the maximum body size *)

Lemma of_uint_acc_grows (d : Decimal.uint) (acc : positive) :
  (Npos acc <= Npos (Pos.of_uint_acc d acc))%N.
Proof.
  revert acc.
  induction d as [ | d IHd | d IHd | d IHd | d IHd | d IHd | d IHd | d IHd | d IHd
                   | d IHd | d IHd ]; intros acc; simpl; try lia;
    (etransitivity; [|apply IHd]); lia.
Qed.

(** One step of the digit loop of [ParseUint], in base 10, on a decimal
    digit that does not overflow 64 bits. *)
Lemma ParseUint_loop_digit (c : ascii) (k : N) (underscores : bool) (n : N) (s : string) :
  Ascii.eqb c "_" = false -> strconv.is_digit c = true ->
  (strconv.byte_val c - 48 = k)%N -> (k < 10)%N ->
  (10 * n + k <= strconv.maxUint64)%N ->
  strconv.ParseUint_loop 10 true (strconv.maxUint64 / 10 + 1) underscores n (String c s)
  = strconv.ParseUint_loop 10 true (strconv.maxUint64 / 10 + 1) underscores (10 * n + k) s.
Proof.
  intros Hunder Hdigit Hval Hk Hfit.
  cbn [strconv.ParseUint_loop]. rewrite Hunder, Hdigit, Hval. cbn [andb].
  unfold strconv.maxUint64 in *.
  change (18446744073709551615 / 10 + 1)%N with 1844674407370955162%N.
  change (2 ^ 64)%N with 18446744073709551616%N.
  assert (Hbase : (10 <=? k)%N = false) by (apply N.leb_gt; lia).
  assert (Hcut : (1844674407370955162 <=? n)%N = false) by (apply N.leb_gt; lia).
  rewrite Hbase, Hcut.
  rewrite (N.mod_small (n * 10)) by lia.
  rewrite (N.mod_small (n * 10 + k)) by lia.
  assert (Hwrap : (n * 10 + k <? n * 10)%N = false) by (apply N.ltb_ge; lia).
  assert (Hmax : (18446744073709551615 <? n * 10 + k)%N = false) by (apply N.ltb_ge; lia).
  rewrite Hwrap, Hmax. cbn [orb]. now rewrite (N.mul_comm n 10).
Qed.

(** The digit loop of [ParseUint], in base 10, on the digits of a decimal
    number: it continues the accumulator by the digits, as long as the
    result fits 64 bits. *)
Lemma ParseUint_loop_decimal (d : Decimal.uint) (acc : positive) :
  (Npos (Pos.of_uint_acc d acc) <= strconv.maxUint64)%N ->
  strconv.ParseUint_loop 10 true (strconv.maxUint64 / 10 + 1) false (Npos acc)
    (NilEmpty.string_of_uint d)
  = inl (Npos (Pos.of_uint_acc d acc), false).
Proof.
  revert acc.
  induction d as [ | d IHd | d IHd | d IHd | d IHd | d IHd | d IHd | d IHd | d IHd
                   | d IHd | d IHd ]; intros acc Hfit; [reflexivity|..].
  all: cbn [NilEmpty.string_of_uint Pos.of_uint_acc] in *.
  all: match type of Hfit with
       | (Npos (Pos.of_uint_acc ?d' ?a) <= _)%N =>
           pose proof (of_uint_acc_grows d' a) as Hgrow; rewrite <- (IHd a Hfit)
       end.
  all: match goal with
       | |- strconv.ParseUint_loop _ _ _ _ _ (String ?c _) = _ =>
           let k := eval vm_compute in (strconv.byte_val c - 48)%N in
           rewrite (ParseUint_loop_digit c k) by first [reflexivity | lia]
       end.
  all: f_equal; lia.
Qed.

(** [ParseUint] reads the decimal rendering of a positive number that fits
    64 bits as that number. *)
Lemma ParseUint_decimal (p : positive) :
  (Npos p <= strconv.maxUint64)%N ->
  strconv.ParseUint (NilEmpty.string_of_uint (Pos.to_uint p)) = (Npos p, None).
Proof.
  intros Hfit.
  pose proof (DecimalPos.Unsigned.of_to p) as Hval.
  pose proof (DecimalPos.Unsigned.to_uint_nonnil p) as Hnil.
  assert (Hhead : forall d, Pos.to_uint p <> Decimal.D0 d).
  { intros d Hd. pose proof (DecimalPos.Unsigned.to_of (Pos.to_uint p)) as Hnorm.
    rewrite Hval in Hnorm. simpl in Hnorm. rewrite Hd in Hnorm.
    unfold Decimal.unorm in Hnorm. simpl in Hnorm.
    destruct (Decimal.nzhead d) eqn:Hh.
    - injection Hnorm as ->. now apply (DecimalPos.Unsigned.to_uint_nonzero p).
    - exact (DecimalFacts.nzhead_nonzero d _ Hh).
    - discriminate. - discriminate. - discriminate. - discriminate.
    - discriminate. - discriminate. - discriminate. - discriminate.
    - discriminate. }
  destruct (Pos.to_uint p) as [ | d | d | d | d | d | d | d | d | d | d ] eqn:Hd;
    [contradiction | exfalso; now apply (Hhead d) | ..].
  all: simpl in Hval; injection Hval as Hval.
  all: unfold strconv.ParseUint; cbn [NilEmpty.string_of_uint].
  all: match goal with
       | |- context [Ascii.eqb ?c "0"] =>
           change (Ascii.eqb c "0") with false; cbv iota;
           let k := eval vm_compute in (strconv.byte_val c - 48)%N in
           rewrite (ParseUint_loop_digit c k) by first [reflexivity | vm_compute; discriminate];
           match goal with
           | |- context [(10 * 0 + k)%N] =>
               let k' := eval vm_compute in (10 * 0 + k)%N in
               change (10 * 0 + k)%N with k'
           end
       end.
  all: rewrite ParseUint_loop_decimal by (rewrite Hval; exact Hfit).
  all: rewrite Hval; reflexivity.
Qed.

(** [ParseInt] on an unsigned string that [ParseUint] reads as a number
    below 2^63, and on a minus sign followed by a number up to 2^63. *)
Lemma ParseInt_plain (c : ascii) (r : string) (un : N) :
  Ascii.eqb c "+" = false -> Ascii.eqb c "-" = false ->
  strconv.ParseUint (String c r) = (un, None) -> (un < 2 ^ 63)%N ->
  strconv.ParseInt (String c r) = (Z.of_N un, None).
Proof.
  intros Hplus Hminus Hparse Hfit. unfold strconv.ParseInt.
  rewrite Hplus, Hminus, Hparse. cbn [negb andb].
  apply N.leb_gt in Hfit. rewrite Hfit.
  apply N.leb_gt in Hfit. unfold strconv.int64_of_uint64.
  rewrite int64_wrap_small; [reflexivity|].
  change (2 ^ 63)%N with 9223372036854775808%N in Hfit. lia.
Qed.

Lemma ParseInt_minus (r : string) (un : N) :
  strconv.ParseUint r = (un, None) -> (un <= 2 ^ 63)%N ->
  strconv.ParseInt (String "-" r) = (- Z.of_N un, None).
Proof.
  intros Hparse Hfit. unfold strconv.ParseInt.
  change (Ascii.eqb "-" "+") with false. change (Ascii.eqb "-" "-") with true.
  cbv iota. rewrite Hparse. cbn [negb andb].
  assert (Hcut : (2 ^ 63 <? un)%N = false) by (apply N.ltb_ge; exact Hfit).
  rewrite Hcut. f_equal.
  change (2 ^ 63)%N with 9223372036854775808%N in Hfit.
  unfold strconv.int64_of_uint64, strconv.int64_wrap.
  change (2 ^ 63) with 9223372036854775808.
  change (2 ^ 64) with 18446744073709551616.
  destruct (N.eq_dec un 9223372036854775808%N) as [->|Hne]; [reflexivity|].
  assert (0 <= Z.of_N un < 9223372036854775808) by lia.
  rewrite (Z.mod_small (Z.of_N un + 9223372036854775808)) by lia.
  replace (Z.of_N un + 9223372036854775808 - 9223372036854775808) with (Z.of_N un) by lia.
  rewrite Z.mod_small by lia. lia.
Qed.

(** The decimal rendering of a positive number starts with a digit. *)
Lemma decimal_head (p : positive) :
  exists c r, NilZero.string_of_uint (Pos.to_uint p) = String c r
              /\ NilZero.string_of_uint (Pos.to_uint p)
                 = NilEmpty.string_of_uint (Pos.to_uint p)
              /\ Ascii.eqb c "+" = false /\ Ascii.eqb c "-" = false.
Proof.
  pose proof (DecimalPos.Unsigned.to_uint_nonnil p) as Hnil.
  destruct (Pos.to_uint p); [contradiction|..]; simpl; eauto 10.
Qed.

(** [ParseInt] reads the [%d] rendering of every [int64] back as it is. *)
Lemma ParseInt_decimal (n : Z) :
  - 2 ^ 63 <= n < 2 ^ 63 -> strconv.ParseInt (fmt_d n) = (n, None).
Proof.
  intros Hn. change (2 ^ 63) with 9223372036854775808 in Hn.
  unfold fmt_d. destruct n as [|p|p]; [reflexivity|..]; simpl Z.to_int;
    cbn [NilZero.string_of_int].
  - destruct (decimal_head p) as (c & r & Hs & Hd & Hplus & Hminus).
    assert (Hparse : strconv.ParseUint (String c r) = (Npos p, None)).
    { rewrite <- Hs, Hd. apply ParseUint_decimal. unfold strconv.maxUint64. lia. }
    rewrite Hs. rewrite (ParseInt_plain c r (Npos p)); auto.
    change (2 ^ 63)%N with 9223372036854775808%N. lia.
  - destruct (decimal_head p) as (c & r & Hs & Hd & Hplus & Hminus).
    rewrite (ParseInt_minus _ (Npos p)).
    + reflexivity.
    + rewrite Hd. apply ParseUint_decimal. unfold strconv.maxUint64. lia.
    + change (2 ^ 63)%N with 9223372036854775808%N. lia.
Qed.

(** X18. A maximum body size given as a plain decimal number is taken as
    it is: when the variable holds the decimal rendering of an [int64], the
    maximum after [init] is that number, negative ones included, and [init]
    logs no error about the variable. *)
Theorem init_max_body_size_decimal (env : gmap string string) (n : Z)
    (Hn : - 2 ^ 63 <= n < 2 ^ 63)
    (Hset : LookupEnv env "FULL_ACCESS_LOG_MAX_BODY_SIZE" = Some (fmt_d n)) :
  FullAccessLogMaxBodySize (fst (init env)) = n
  /\ (forall e : strconv.NumError,
        ~ In (logrus.Errorf "Parse FULL_ACCESS_LOG_MAX_BODY_SIZE env error: %v"
                (logrus.ArgNumError e))
             (snd (init env))).
Proof.
  split.
  - destruct (init_values env) as (_ & _ & Hmax & _).
    rewrite Hmax, Hset, ParseInt_decimal by assumption. reflexivity.
  - intros e. rewrite init_errors, Hset, ParseInt_decimal by assumption. cbn [snd].
    rewrite !in_app_iff.
    assert (Hother : forall key fmt (parse : string -> bool * option strconv.NumError),
               fmt <> "Parse FULL_ACCESS_LOG_MAX_BODY_SIZE env error: %v" ->
               ~ In (logrus.Errorf "Parse FULL_ACCESS_LOG_MAX_BODY_SIZE env error: %v"
                       (logrus.ArgNumError e))
                    match LookupEnv env key with
                    | Some s => logParseError fmt (snd (parse s))
                    | None => []
                    end).
    { intros key fmt parse Hfmt. destruct (LookupEnv env key) as [s|]; [|tauto].
      unfold logParseError. destruct (snd (parse s)); simpl; [|tauto].
      intros [[= Heq _]|[]]. congruence. }
    intros [Hin | [[] | [Hin | Hin]]];
      (eapply Hother; [|exact Hin]); discriminate.
Qed.

(** X19. When none of the five variables is set, whatever else the
    environment holds, [init] leaves capture off, the five default content
    types, a maximum of 10240 bytes and both direction switches on, and
    logs nothing. *)
Theorem init_defaults (env : gmap string string)
    (Hen : LookupEnv env "FULL_ACCESS_LOG_ENABLED" = None)
    (Htypes : LookupEnv env "FULL_ACCESS_LOG_SUPPORTED_CONTENT_TYPES" = None)
    (Hmax : LookupEnv env "FULL_ACCESS_LOG_MAX_BODY_SIZE" = None)
    (Hreq : LookupEnv env "FULL_ACCESS_LOG_REQUEST_BODY_ENABLED" = None)
    (Hresp : LookupEnv env "FULL_ACCESS_LOG_RESPONSE_BODY_ENABLED" = None) :
  init env =
  (mkConfig false
     ["application/json"; "application/xml"; "application/x-www-form-urlencoded";
      "text/plain"; "text/html"]
     10240 true true, []).
Proof.
  unfold init, initBool. rewrite Hen, Htypes, Hmax, Hreq, Hresp. reflexivity.
Qed.

(** ** The further properties on concrete transactions *)

(** A text/plain response of two lines is captured on one line. *)
Lemma capture_has_no_line_break_witness :
  let w := mkInterceptor (mkHTTPResponseWriter ∅ [] None)
             (list_byte_of_string (String "a" (String LF "b"))) in
  GoStrings.Contains "text/plain" "application/json" = false
  /\ ~ In LF (list_ascii_of_string
                (getResponseBody (H := sampleCollaborators) enabledConfig w "text/plain"))
  /\ ~ In CR (list_ascii_of_string
                (getResponseBody (H := sampleCollaborators) enabledConfig w "text/plain")).
Proof.
  intros w. split; [reflexivity|].
  apply (capture_has_no_line_break (H := sampleCollaborators) enabledConfig "text/plain").
  reflexivity.
Defined.

(** A five-byte text body without line breaks is captured as it is. *)
Lemma newline_free_body_verbatim_witness :
  fst (fst (getRequestBody (H := sampleCollaborators) enabledConfig
              (sampleRequest "text/plain" (textBody "hello")) "text/plain"))
  = "hello".
Proof.
  apply (newline_free_body_verbatim (H := sampleCollaborators) enabledConfig
           "text/plain" (list_byte_of_string "hello")).
  - discriminate.
  - reflexivity.
  - reflexivity.
  - vm_compute. discriminate.
  - vm_compute. intuition discriminate.
  - vm_compute. intuition discriminate.
  - reflexivity.
Defined.

(** With the default maximum the capture of a text/plain response does not
    exceed 20480 bytes. *)
Lemma capture_length_bounded_witness :
  let w := mkInterceptor (mkHTTPResponseWriter ∅ [] None) (list_byte_of_string "hello") in
  Z.of_nat (String.length
              (getResponseBody (H := sampleCollaborators) enabledConfig w "text/plain"))
  <= 20480.
Proof.
  intros w.
  apply (capture_length_bounded (H := sampleCollaborators) enabledConfig "text/plain").
  reflexivity.
Defined.

(** The same five bytes are captured alike as a request and as a response. *)
Lemma request_and_response_capture_agree_witness :
  let w := mkInterceptor (mkHTTPResponseWriter ∅ [] None) (list_byte_of_string "hello") in
  fst (fst (getRequestBody (H := sampleCollaborators) enabledConfig
              (sampleRequest "application/xml" (textBody "hello")) "application/xml"))
  = getResponseBody (H := sampleCollaborators) enabledConfig w "application/xml".
Proof.
  intros w.
  destruct (request_and_response_capture_agree (H := sampleCollaborators) enabledConfig
              (sampleRequest "application/xml" (textBody "hello")) w "application/xml")
    as (Hagree & _); [reflexivity|].
  apply Hagree. discriminate.
Defined.

(** The stream that breaks after three bytes is handed on as a complete
    three-byte body. *)
Lemma restored_body_hides_read_error_witness :
  snd (ioutil.ReadAll brokenBody) = Some "unexpected EOF"
  /\ ioutil.ReadAll
       (Body (snd (fst (getRequestBody (H := sampleCollaborators) enabledConfig
                          (sampleRequest "text/plain" brokenBody) "text/plain"))))
     = (list_byte_of_string "abc", None).
Proof.
  split; [reflexivity|].
  apply (restored_body_hides_read_error (H := sampleCollaborators) enabledConfig
           (sampleRequest "text/plain" brokenBody) "text/plain").
  - discriminate.
  - reflexivity.
  - discriminate.
Defined.

(** The variable HOME does not reach [init]. *)
Lemma init_ignores_other_variables_witness :
  init (<[ "HOME" := "/root" ]> {[ "FULL_ACCESS_LOG_ENABLED" := "true" ]})
  = init {[ "FULL_ACCESS_LOG_ENABLED" := "true" ]}.
Proof.
  apply (init_ignores_other_variables {[ "FULL_ACCESS_LOG_ENABLED" := "true" ]}
           "HOME" "/root").
  simpl. intuition discriminate.
Defined.

(** Two content types, the second one with the blank that follows the
    comma. *)
Lemma init_content_types_from_environment_witness :
  let env : gmap string string :=
    {[ "FULL_ACCESS_LOG_SUPPORTED_CONTENT_TYPES" := "text/csv, text/plain" ]} in
  String.concat "," (FullAccessLogSupportedContentTypes (fst (init env)))
  = "text/csv, text/plain"
  /\ length (FullAccessLogSupportedContentTypes (fst (init env))) = 2%nat.
Proof.
  intros env.
  destruct (init_content_types_from_environment env "text/csv, text/plain")
    as (Hjoin & _ & Hcount); [reflexivity|].
  split; [exact Hjoin | exact Hcount].
Defined.

(** A value that ends with a comma makes image/png supported. *)
Lemma init_empty_entry_supports_all_witness :
  isSupportedContentType
    (fst (init {[ "FULL_ACCESS_LOG_SUPPORTED_CONTENT_TYPES" := "application/json," ]}))
    "image/png" = true.
Proof.
  apply (init_empty_entry_supports_all
           {[ "FULL_ACCESS_LOG_SUPPORTED_CONTENT_TYPES" := "application/json," ]}
           "application/json,").
  - reflexivity.
  - right. right. left. now exists "application/json".
Defined.

(** The record of a text/plain transaction gives one line. *)
Lemma record_is_one_line_witness :
  let r := logged (AccessLog (H := sampleCollaborators) enabledConfig sampleLogging sampleClock
                     (sampleRequest "text/plain" (textBody (String "a" (String LF "b"))))
                     sampleResponse (sampleChain "text/plain" [])) in
  ~ In LF (list_ascii_of_string (fullAccessLogFormat r)).
Proof.
  intros r. apply (record_is_one_line r).
  intros f Hin. apply absent_by_test. vm_compute in Hin.
  repeat (destruct Hin as [<- | Hin]; [reflexivity|]). contradiction.
Defined.

(** text/plain stays supported when text/csv is added in front. *)
Lemma eligibility_grows_with_the_set_witness :
  isSupportedContentType
    (setSupportedContentTypes enabledConfig ("text/csv" :: defaultSupportedContentTypes))
    "text/plain; charset=utf-8" = true.
Proof.
  apply (eligibility_grows_with_the_set enabledConfig).
  - intros v Hin. right. exact Hin.
  - reflexivity.
Defined.

(** An empty JSON request is logged with an empty body, even with a negative
    maximum and a masking directive attached by the chain. *)
Lemma empty_request_body_logged_empty_witness :
  rec_request_body
    (logged (AccessLog (H := starCollaborators) negativeMaxConfig sampleLogging sampleClock
               (sampleRequest "application/json" ioutil.EOF) sampleResponse
               (attachAttribute "maskedRequestFields" "password"
                  (sampleChain "text/plain" []))))
  = "".
Proof.
  apply (empty_request_body_logged_empty (H := starCollaborators)); reflexivity.
Defined.

(** A directive attached by the chain masks the body captured before the
    chain ran. *)
Lemma request_body_masked_after_chain_witness :
  let req := sampleRequest "text/plain" (textBody "secret") in
  let chain := attachAttribute "maskedRequestFields" "password"
                 (sampleChain "text/plain" []) in
  Attribute req "maskedRequestFields" = None
  /\ rec_request_body
       (logged (AccessLog (H := starCollaborators) enabledConfig sampleLogging sampleClock req
                  sampleResponse chain))
     = "***".
Proof.
  intros req chain. split; [reflexivity|].
  destruct (request_body_masked_after_chain (H := starCollaborators) enabledConfig
              sampleLogging sampleClock req sampleResponse chain eq_refl eq_refl) as (Hmask & _).
  apply (Hmask "password"); [reflexivity | discriminate].
Defined.

(** The value 2048 is taken as it is. *)
Lemma init_max_body_size_decimal_witness :
  FullAccessLogMaxBodySize (fst (init {[ "FULL_ACCESS_LOG_MAX_BODY_SIZE" := "2048" ]}))
  = 2048.
Proof.
  apply (init_max_body_size_decimal {[ "FULL_ACCESS_LOG_MAX_BODY_SIZE" := "2048" ]} 2048).
  - split; [vm_compute; discriminate | reflexivity].
  - reflexivity.
Defined.

(** An environment that only holds HOME gives the defaults. *)
Lemma init_defaults_witness :
  FullAccessLogMaxBodySize (fst (init {[ "HOME" := "/root" ]})) = 10240
  /\ FullAccessLogEnabled (fst (init {[ "HOME" := "/root" ]})) = false.
Proof.
  rewrite (init_defaults {[ "HOME" := "/root" ]}) by reflexivity.
  split; reflexivity.
Defined.
